(** * Smart robotic arm backend: a shallow embedding of [main.py] and
    [vision_tracking.py], with the properties of the status store, the
    command bridge, the broadcast fan-out and the closest-object scan. *)

From Stdlib Require Import ZArith Ascii String.
From Stdlib Require Import Floats.SpecFloat.
From stdpp Require Import gmap strings list fin_maps functions pretty.

Open Scope Z_scope.
Set Warnings "-register-all".

(** ** Python exceptions and fallible results *)

Inductive exn : Type :=
  | OverflowError
  | AttributeError
  | KeyError
  | RuntimeError
  | JSONDecodeError
  | ConnectionClosed.

Inductive pyres (A : Type) : Type :=
  | Ok (a : A)
  | Raise (e : exn).
Arguments Ok {A} a.
Arguments Raise {A} e.

Definition pybind {A B} (r : pyres A) (k : A → pyres B) : pyres B :=
  match r with
  | Ok a => k a
  | Raise e => Raise e
  end.

Notation "x ←? r ; k" := (pybind r (λ x, k))
  (at level 100, r at next level, right associativity).

(** ** Python floats: IEEE 754 binary64 *)

Module Float64.

Definition prec : Z := 53.
Definition emax : Z := 1024.

Definition float : Type := spec_float.

Definition inf : float := S754_infinity false.

Definition sub : float → float → float := SFsub prec emax.
Definition add : float → float → float := SFadd prec emax.
Definition mul : float → float → float := SFmul prec emax.
Definition sqrt : float → float := SFsqrt prec emax.
Definition ltb : float → float → bool := SFltb.

(** The C library's [pow(x, 2.0)] for a finite [x > 0]: the value it
    returns, and whether it reports a range error through [errno].  How
    a library rounds the square is its own matter and differs between
    libraries, so the function is taken as given. *)
Class Libm : Type := { libm_pow2 : float → float * bool }.

Definition one : float := S754_finite false 4503599627370496 (-52).

(** [x ** 2] on a Python float, as CPython's [float_pow] computes it: NaN
    for NaN, [+inf] for an infinite base, [0.0] for a zero base; a
    negative base is replaced by its absolute value (the exponent is
    even); a base of 1.0 gives 1.0; every other base is passed to the C
    library's [pow].  After the call a result of [+-inf] counts as a
    range error, and a range error reported with a zero result is
    dropped ([_Py_ADJUST_ERANGE1]); a range error raises
    [OverflowError]. *)
Definition pow2 {L : Libm} (x : float) : pyres float :=
  match x with
  | S754_nan => Ok S754_nan
  | S754_infinity _ => Ok (S754_infinity false)
  | S754_zero _ => Ok (S754_zero false)
  | S754_finite _ m e =>
      let iv := S754_finite false m e in
      if SFeqb iv one then Ok one
      else
        let '(ix, erange) := libm_pow2 iv in
        let erange :=
          if erange : bool
          then match ix with S754_zero _ => false | _ => true end
          else match ix with S754_infinity _ => true | _ => false end in
        if erange then Raise OverflowError else Ok ix
  end.

(** A C library whose [pow(x, 2.0)] is the correctly rounded square and
    which reports no range error of its own; used in the examples. *)
Definition libm_rounded : Libm := {| libm_pow2 x := (mul x x, false) |}.

(** Literals used below: 0.5, 0.1, 0.9, 12.5, 0.0 and 2.0**700. *)
Definition f0_5 : float := S754_finite false 4503599627370496 (-53).
Definition f0_1 : float := S754_finite false 7205759403792794 (-56).
Definition f0_9 : float := S754_finite false 8106479329266893 (-53).
Definition f12_5 : float := S754_finite false 7036874417766400 (-49).
Definition f0_0 : float := S754_zero false.

End Float64.

(** ** vision_tracking.py *)

Module VisionTracker.
Import Float64.

(** One entry of the list built by [_process_detections]. *)
Record detection : Type := {
  id : Z;
  class_id : Z;
  class_name : string;
  confidence : float;
  bbox : Z * Z * Z * Z;
  center : Z * Z;
  relative_position : float * float;
  size : Z * Z;
  timestamp : float
}.

(** The part of the tracker object that [find_closest_object] reads. *)
Record t : Type := {
  is_running : bool;
  detections : list detection
}.

(** [get_detections]: a copy of the current list. *)
Definition get_detections (self : t) : list detection := detections self.

Definition default_target_position : float * float := (f0_5, f0_5).

(** [np.sqrt((rel_x - target[0])**2 + (rel_y - target[1])**2)] *)
Definition distance_to {L : Libm} (target_position : float * float)
    (d : detection) : pyres float :=
  let '(rel_x, rel_y) := relative_position d in
  dx2 ←? pow2 (sub rel_x (fst target_position));
  dy2 ←? pow2 (sub rel_y (snd target_position));
  Ok (sqrt (add dx2 dy2)).

(** The [for detection in detections] loop, with its two loop
    variables [min_distance] and [closest_object]. *)
Fixpoint scan {L : Libm} (target_position : float * float)
    (ds : list detection)
    (min_distance : float) (closest_object : option detection)
  : pyres (option detection) :=
  match ds with
  | [] => Ok closest_object
  | d :: rest =>
      distance ←? distance_to target_position d;
      if ltb distance min_distance
      then scan target_position rest distance (Some d)
      else scan target_position rest min_distance closest_object
  end.

(** [find_closest_object(self, target_position=(0.5, 0.5))]; the
    optional argument is [None] when the caller omits it. *)
Definition find_closest_object {L : Libm} (self : t)
    (target_position : option (float * float)) : pyres (option detection) :=
  let target_position := default default_target_position target_position in
  let ds := get_detections self in
  match ds with
  | [] => Ok None
  | _ => scan target_position ds inf None
  end.


End VisionTracker.


(** ** Python values held in dictionaries and JSON payloads *)

Inductive pyval : Type :=
  | PNone
  | PBool (b : bool)
  | PInt (z : Z)
  | PFloat (f : Float64.float)
  | PStr (s : string)
  | PList (l : list pyval)
  | PDict (d : gmap string pyval).

(** [str.upper] on ASCII text. *)
Definition ascii_upper (c : ascii) : ascii :=
  let n := N_of_ascii c in
  if ((97 <=? n) && (n <=? 122))%N then ascii_of_N (n - 32)%N else c.

Fixpoint upper (s : string) : string :=
  match s with
  | EmptyString => EmptyString
  | String c rest => String (ascii_upper c) (upper rest)
  end.

(** [payload.get(key, default)]: only a dict has a [get] method. *)
Definition py_get (payload : pyval) (key : string) (dflt : pyval) : pyres pyval :=
  match payload with
  | PDict d => Ok (default dflt (d !! key))
  | _ => Raise AttributeError
  end.

(** [d[key]] *)
Definition py_getitem (d : gmap string pyval) (key : string) : pyres pyval :=
  match d !! key with
  | Some v => Ok v
  | None => Raise KeyError
  end.

(** [d.update(other)]: the keys of [other] take its values. *)
Definition dict_update (d other : gmap string pyval) : gmap string pyval :=
  other ∪ d.

(** [v != 'manual'] *)
Definition py_ne_str (v : pyval) (s : string) : bool :=
  match v with
  | PStr s' => bool_decide (s' ≠ s)
  | _ => true
  end.

(** [v in ['auto', 'manual']]: the string alternatives a value may equal. *)
Definition py_in_strs (v : pyval) (alts : list string) : option string :=
  match v with
  | PStr s => if bool_decide (s ∈ alts) then Some s else None
  | _ => None
  end.

Definition detection_to_pyval (d : VisionTracker.detection) : pyval :=
  let '(x1, y1, x2, y2) := VisionTracker.bbox d in
  PDict {[ "id" := PInt (VisionTracker.id d);
           "class_id" := PInt (VisionTracker.class_id d);
           "class_name" := PStr (VisionTracker.class_name d);
           "confidence" := PFloat (VisionTracker.confidence d);
           "bbox" := PList [PInt x1; PInt y1; PInt x2; PInt y2];
           "center" := PList [PInt (fst (VisionTracker.center d));
                              PInt (snd (VisionTracker.center d))];
           "relative_position" :=
             PList [PFloat (fst (VisionTracker.relative_position d));
                    PFloat (snd (VisionTracker.relative_position d))];
           "size" := PList [PInt (fst (VisionTracker.size d));
                            PInt (snd (VisionTracker.size d))];
           "timestamp" := PFloat (VisionTracker.timestamp d) ]}.

(** ** main.py *)

Module SmartArmBackend.
Import Float64.

Definition STATUS_TOPIC : string := "smartarm/status".
Definition CONTROL_TOPIC : string := "smartarm/control".

(** The broker client: what was subscribed to and what was handed to
    [publish], oldest first, as (topic, payload). *)
Record mqtt_client_t : Type := {
  subscriptions : list string;
  published : list (string * string)
}.

(** A websocket connection object: whether it is closed, and the
    messages it accepted, oldest first.  A message is kept as the value
    given to [json.dumps]. *)
Record websocket : Type := {
  closed : bool;
  received : list pyval
}.

(** Coroutines handed to [asyncio.create_task]. *)
Inductive task : Type :=
  | BroadcastStatus
  | BroadcastDetections (detections : list VisionTracker.detection).

(** The backend object.  Websocket objects are referred to by identity
    ([nat]); [sockets] is their store. *)
Record t : Type := {
  vision_tracker : VisionTracker.t;
  data_logger : list (pyval * Z * VisionTracker.detection);
  mqtt_client : option mqtt_client_t;
  websocket_clients : gset nat;
  system_status : gmap string pyval;
  sockets : nat → websocket;
  tasks : list task
}.

Definition default_servos : pyval :=
  PList [PInt 90; PInt 90; PInt 90; PInt 90; PInt 90].

Definition initial_status : gmap string pyval :=
  {[ "mode" := PStr "auto";
     "vision_active" := PBool false;
     "mqtt_connected" := PBool false;
     "last_detection" := PNone;
     "servo_angles" := default_servos;
     "distance_cm" := PFloat f0_0;
     "motor_speed" := PInt 0;
     "grab_count" := PInt 0;
     "error_message" := PStr "" ]}.

(** [__init__] *)
Definition init : t :=
  {| vision_tracker := {| VisionTracker.is_running := false;
                          VisionTracker.detections := [] |};
     data_logger := [];
     mqtt_client := None;
     websocket_clients := ∅;
     system_status := initial_status;
     sockets := λ _, {| closed := false; received := [] |};
     tasks := [] |}.

(** *** Field assignment *)

Definition with_vision_tracker (v : VisionTracker.t) (self : t) : t :=
  {| vision_tracker := v; data_logger := data_logger self;
     mqtt_client := mqtt_client self;
     websocket_clients := websocket_clients self;
     system_status := system_status self; sockets := sockets self;
     tasks := tasks self |}.

Definition with_data_logger l (self : t) : t :=
  {| vision_tracker := vision_tracker self; data_logger := l;
     mqtt_client := mqtt_client self;
     websocket_clients := websocket_clients self;
     system_status := system_status self; sockets := sockets self;
     tasks := tasks self |}.

Definition with_mqtt_client (c : option mqtt_client_t) (self : t) : t :=
  {| vision_tracker := vision_tracker self; data_logger := data_logger self;
     mqtt_client := c;
     websocket_clients := websocket_clients self;
     system_status := system_status self; sockets := sockets self;
     tasks := tasks self |}.

Definition with_websocket_clients (w : gset nat) (self : t) : t :=
  {| vision_tracker := vision_tracker self; data_logger := data_logger self;
     mqtt_client := mqtt_client self;
     websocket_clients := w;
     system_status := system_status self; sockets := sockets self;
     tasks := tasks self |}.

Definition with_system_status (s : gmap string pyval) (self : t) : t :=
  {| vision_tracker := vision_tracker self; data_logger := data_logger self;
     mqtt_client := mqtt_client self;
     websocket_clients := websocket_clients self;
     system_status := s; sockets := sockets self;
     tasks := tasks self |}.

Definition with_sockets (k : nat → websocket) (self : t) : t :=
  {| vision_tracker := vision_tracker self; data_logger := data_logger self;
     mqtt_client := mqtt_client self;
     websocket_clients := websocket_clients self;
     system_status := system_status self; sockets := k;
     tasks := tasks self |}.

Definition with_tasks (l : list task) (self : t) : t :=
  {| vision_tracker := vision_tracker self; data_logger := data_logger self;
     mqtt_client := mqtt_client self;
     websocket_clients := websocket_clients self;
     system_status := system_status self; sockets := sockets self;
     tasks := l |}.

(** *** Methods run on the object and may raise: state and exceptions *)

Definition M (A : Type) : Type := t → pyres A * t.

Definition ret {A} (a : A) : M A := λ self, (Ok a, self).
Definition raise {A} (e : exn) : M A := λ self, (Raise e, self).
Definition bind {A B} (m : M A) (k : A → M B) : M B :=
  λ self, match m self with
          | (Ok a, self') => k a self'
          | (Raise e, self') => (Raise e, self')
          end.
Definition lift {A} (r : pyres A) : M A := λ self, (r, self).
Definition get : M t := λ self, (Ok self, self).
Definition modify (f : t → t) : M unit := λ self, (Ok tt, f self).

(** [try: m except ...: h]; [h e = None] when no clause matches [e]. *)
Definition try_except {A} (m : M A) (h : exn → option (M A)) : M A :=
  λ self, match m self with
          | (Ok a, self') => (Ok a, self')
          | (Raise e, self') =>
              match h e with
              | Some handler => handler self'
              | None => (Raise e, self')
              end
          end.

Definition exec {A} (m : M A) (self : t) : t := snd (m self).

Notation "x ←! m ; k" := (bind m (λ x, k))
  (at level 100, m at next level, right associativity).
Notation "m ;! k" := (bind m (λ _, k))
  (at level 100, right associativity).

(** [self.system_status[key] = value] *)
Definition status_setitem (key : string) (value : pyval) : M unit :=
  modify (λ self, with_system_status (<[key:=value]> (system_status self)) self).

(** [self.system_status[key]] *)
Definition status_getitem (key : string) : M pyval :=
  self ←! get; lift (py_getitem (system_status self) key).

(** [client.publish(topic, payload)] *)
Definition client_publish (client : mqtt_client_t) (topic payload : string)
  : mqtt_client_t :=
  {| subscriptions := subscriptions client;
     published := published client ++ [(topic, payload)] |}.

Definition publish (client : mqtt_client_t) (topic payload : string) : M unit :=
  modify (with_mqtt_client (Some (client_publish client topic payload))).

(** [client.subscribe(topic)] *)
Definition subscribe (client : mqtt_client_t) (topic : string) : M unit :=
  modify (with_mqtt_client
    (Some {| subscriptions := subscriptions client ++ [topic];
             published := published client |})).

(** [asyncio.create_task(coro)]: raises [RuntimeError] when the calling
    thread has no running event loop. *)
Definition create_task (in_loop : bool) (c : task) : M unit :=
  if in_loop
  then modify (λ self, with_tasks (tasks self ++ [c]) self)
  else raise RuntimeError.

(** [await client.send(message)] *)
Definition send (client : nat) (message : pyval) : M unit :=
  self ←! get;
  let ws := sockets self client in
  if closed ws then raise ConnectionClosed
  else modify (with_sockets
         (<[client := {| closed := false;
                         received := received ws ++ [message] |}]>
            (sockets self))).

(** [initialize_mqtt]; [connect_ok] tells whether [connect] and
    [loop_start] went through. *)
Definition initialize_mqtt (connect_ok : bool) : M bool :=
  modify (with_mqtt_client (Some {| subscriptions := []; published := [] |}));!
  ret connect_ok.

(** [on_mqtt_connect]; [client] is the backend's own client. *)
Definition on_mqtt_connect (rc : Z) : M unit :=
  if bool_decide (rc = 0) then
    status_setitem "mqtt_connected" (PBool true);!
    self ←! get;
    match mqtt_client self with
    | Some client => subscribe client STATUS_TOPIC
    | None => ret tt
    end
  else status_setitem "mqtt_connected" (PBool false).

(** An inbound broker message; [payload] is the outcome of
    [json.loads(msg.payload.decode())]. *)
Record mqtt_message : Type := {
  topic : string;
  payload : pyres pyval
}.

(** [on_mqtt_message] *)
Definition on_mqtt_message (in_loop : bool) (msg : mqtt_message) : M unit :=
  try_except
    (let topic := topic msg in
     payload ←! lift (payload msg);
     if bool_decide (topic = STATUS_TOPIC) then
       servos ←! lift (py_get payload "servos" default_servos);
       distance ←! lift (py_get payload "distance" (PFloat f0_0));
       motor_speed ←! lift (py_get payload "motor_speed" (PInt 0));
       modify (λ self, with_system_status
         (dict_update (system_status self)
            {[ "servo_angles" := servos;
               "distance_cm" := distance;
               "motor_speed" := motor_speed ]}) self);!
       create_task in_loop BroadcastStatus
     else ret tt)
    (λ _, Some (ret tt)).

(** [on_mqtt_disconnect] *)
Definition on_mqtt_disconnect : M unit :=
  status_setitem "mqtt_connected" (PBool false).

(** [data_logger.log_operation(mode=..., objects_detected=...,
    detection_data=...)]; it handles its own errors. *)
Definition log_operation (mode : pyval) (objects_detected : Z)
    (detection_data : VisionTracker.detection) : M unit :=
  modify (λ self, with_data_logger
    (data_logger self ++ [(mode, objects_detected, detection_data)]) self).

(** [on_vision_detection]; [now] is [datetime.now().isoformat()]. *)
Definition on_vision_detection {L : Libm} (in_loop : bool) (now : string)
    (detections : list VisionTracker.detection) : M unit :=
  status_setitem "last_detection"
    (PDict {[ "timestamp" := PStr now;
              "count" := PInt (Z.of_nat (length detections));
              "objects" := PList (detection_to_pyval <$> detections) ]});!
  (match detections with
   | [] => ret tt
   | _ =>
       self ←! get;
       closest_obj ←! lift (VisionTracker.find_closest_object
                              (vision_tracker self) None);
       match closest_obj with
       | Some obj =>
           mode ←! status_getitem "mode";
           log_operation mode (Z.of_nat (length detections)) obj
       | None => ret tt
       end
   end);!
  create_task in_loop (BroadcastDetections detections).

(** [set_mode] *)
Definition set_mode (mode : pyval) : M unit :=
  match py_in_strs mode ["auto"; "manual"] with
  | Some s =>
      status_setitem "mode" mode;!
      self ←! get;
      match mqtt_client self with
      | Some client => publish client CONTROL_TOPIC ("MODE " +:+ upper s)
      | None => ret tt
      end
  | None => ret tt
  end.

(** [f"SERVO {servo_id} {angle}"] *)
Definition servo_command (servo_id angle : Z) : string :=
  "SERVO " +:+ pretty servo_id +:+ " " +:+ pretty angle.

(** [manual_servo_control] *)
Definition manual_servo_control (servo_id angle : Z) : M bool :=
  mode ←! status_getitem "mode";
  if py_ne_str mode "manual" then ret false
  else
    self ←! get;
    match mqtt_client self with
    | Some client =>
        publish client CONTROL_TOPIC (servo_command servo_id angle);!
        ret true
    | None => ret false
    end.

(** [manual_motor_control] *)
Definition manual_motor_control (speed : Z) : M bool :=
  mode ←! status_getitem "mode";
  if py_ne_str mode "manual" then ret false
  else
    self ←! get;
    match mqtt_client self with
    | Some client =>
        publish client CONTROL_TOPIC ("MOTOR " +:+ pretty speed);!
        ret true
    | None => ret false
    end.

(** [emergency_stop] *)
Definition emergency_stop : M bool :=
  self ←! get;
  match mqtt_client self with
  | Some client => publish client CONTROL_TOPIC "STOP";! ret true
  | None => ret false
  end.

(** [move_to_home] *)
Definition move_to_home : M bool :=
  self ←! get;
  match mqtt_client self with
  | Some client => publish client CONTROL_TOPIC "HOME";! ret true
  | None => ret false
  end.

Definition status_message (self : t) : pyval :=
  PDict {[ "type" := PStr "status"; "data" := PDict (system_status self) ]}.

Definition detections_message (detections : list VisionTracker.detection)
  : pyval :=
  PDict {[ "type" := PStr "detections";
           "data" := PList (detection_to_pyval <$> detections) ]}.

(** [websocket_handler] up to its receive loop: registers the
    connection and sends it the current status.  The result tells
    whether the handler is still serving the connection. *)
Definition websocket_handler_enter (websocket : nat) : M bool :=
  modify (λ self,
    with_websocket_clients ({[websocket]} ∪ websocket_clients self) self);!
  self ←! get;
  try_except (send websocket (status_message self);! ret true)
    (λ e, match e with
          | ConnectionClosed =>
              Some (modify (λ self, with_websocket_clients
                      (websocket_clients self ∖ {[websocket]}) self);!
                    ret false)
          | _ => None
          end).

(** [websocket_handler] leaving its receive loop: the [finally] clause. *)
Definition websocket_handler_exit (websocket : nat) : M unit :=
  modify (λ self,
    with_websocket_clients (websocket_clients self ∖ {[websocket]}) self).

(** The peer of a connection closes it. *)
Definition peer_close (websocket : nat) : M unit :=
  modify (λ self, with_sockets
    (<[websocket := {| closed := true;
                       received := received (sockets self websocket) |}]>
       (sockets self)) self).

(** *** The broadcast coroutines and the event loop

    A broadcast coroutine gives up control at every
    [await client.send(message)].  While it is suspended there the event
    loop may run the other coroutines, which work on the same
    [websocket_clients] set and the same connections: a
    [websocket_handler] registering its connection (line 284) or leaving
    through its [finally] (line 305), a send of another coroutine
    (lines 288, 319, 337), and the peer closing a connection.  The
    [-=] that ends another broadcast round (lines 324, 341) is a run of
    discards. *)
Inductive other : Type :=
  | OtherAdd (websocket : nat)
  | OtherDiscard (websocket : nat)
  | OtherSend (websocket : nat) (message : pyval)
  | OtherPeerClose (websocket : nat).

Definition run_other (o : other) : M unit :=
  match o with
  | OtherAdd websocket =>
      modify (λ self,
        with_websocket_clients ({[websocket]} ∪ websocket_clients self) self)
  | OtherDiscard websocket => websocket_handler_exit websocket
  | OtherSend websocket message =>
      try_except (send websocket message) (λ _, Some (ret tt))
  | OtherPeerClose websocket => peer_close websocket
  end.

(** The steps the others take during one suspension; the result tells
    whether one of them changed [websocket_clients]. *)
Fixpoint others (steps : list other) : M bool :=
  match steps with
  | [] => ret false
  | o :: steps =>
      self ←! get;
      run_other o;!
      self' ←! get;
      changed ←! others steps;
      ret (bool_decide (websocket_clients self' ≠ websocket_clients self)
           || changed)
  end.

(** What happens around one [await client.send(message)] of the loop:
    the steps the others take before the message goes out and those
    they take after it, until the loop goes on.  The loop goes on with
    [next] on the iterator of the set.  A set iterator notes the size
    of the set when it is made, and [next] raises [RuntimeError] ("Set
    changed size during iteration") when the set has another size by
    then.  When the set was changed and has its old size again, what
    the iterator still yields is found in the hash table of the set:
    [ahead] lists it, and of it only connections the set has. *)
Record turn : Type := {
  before : list other;
  after : list other;
  ahead : list nat
}.

(** The rest of the [for client in self.websocket_clients] loop once
    the coroutine is not suspended any more: [ConnectionClosed] from a
    [send] is caught and the client noted in [disconnected]. *)
Fixpoint send_all (message : pyval) (clients : list nat)
    (disconnected : gset nat) : M (gset nat) :=
  match clients with
  | [] => ret disconnected
  | client :: rest =>
      failed ←! try_except (send client message;! ret false)
                  (λ e, match e with
                        | ConnectionClosed => Some (ret true)
                        | _ => None
                        end);
      send_all message rest
        (if failed : bool then {[client]} ∪ disconnected else disconnected)
  end.

(** The [for client in self.websocket_clients] loop shared by the two
    broadcast coroutines; [used] is the size of the set when the loop
    started, [clients] what the iterator has yet to yield, and
    [schedule] what the event loop does at the sends, one [turn] for
    each. *)
Fixpoint send_turns (message : pyval) (used : nat) (schedule : list turn)
    (clients : list nat) (disconnected : gset nat) : M (gset nat) :=
  match schedule with
  | [] => send_all message clients disconnected
  | turn :: schedule =>
      match clients with
      | [] => ret disconnected
      | client :: rest =>
          changed_before ←! others (before turn);
          failed ←! try_except (send client message;! ret false)
                      (λ e, match e with
                            | ConnectionClosed => Some (ret true)
                            | _ => None
                            end);
          changed_after ←! others (after turn);
          self ←! get;
          if bool_decide (size (websocket_clients self) ≠ used)
          then raise RuntimeError
          else
            send_turns message used schedule
              (if changed_before || changed_after
               then filter (λ c, c ∈ websocket_clients self) (ahead turn)
               else rest)
              (if failed : bool then {[client]} ∪ disconnected
               else disconnected)
      end
  end.

(** One broadcast round over the registered clients: the loop over the
    live set, then [self.websocket_clients -= disconnected]. *)
Definition broadcast (message : pyval) (schedule : list turn) : M unit :=
  self ←! get;
  disconnected ←!
    send_turns message (size (websocket_clients self)) schedule
      (elements (websocket_clients self)) ∅;
  modify (λ self,
    with_websocket_clients (websocket_clients self ∖ disconnected) self).

(** [broadcast_status] *)
Definition broadcast_status (schedule : list turn) : M unit :=
  self ←! get;
  if bool_decide (websocket_clients self ≠ ∅)
  then broadcast (status_message self) schedule
  else ret tt.

(** [broadcast_detections] *)
Definition broadcast_detections (schedule : list turn)
    (detections : list VisionTracker.detection) : M unit :=
  self ←! get;
  if bool_decide (websocket_clients self ≠ ∅)
  then broadcast (detections_message detections) schedule
  else ret tt.

(** [start_vision_tracking] *)
Definition start_vision_tracking : M unit :=
  modify (λ self, with_vision_tracker
    {| VisionTracker.is_running := true;
       VisionTracker.detections :=
         VisionTracker.detections (vision_tracker self) |} self);!
  status_setitem "vision_active" (PBool true).

(** [stop_vision_tracking] *)
Definition stop_vision_tracking : M unit :=
  modify (λ self, with_vision_tracker
    {| VisionTracker.is_running := false;
       VisionTracker.detections :=
         VisionTracker.detections (vision_tracker self) |} self);!
  status_setitem "vision_active" (PBool false).

(** One cycle of the tracker's [_tracking_loop]: the new detections are
    stored and, when there are any, the detection callback runs; the
    loop catches what the callback raises. *)
Definition tracking_cycle {L : Libm} (in_loop : bool) (now : string)
    (detections : list VisionTracker.detection) : M unit :=
  modify (λ self, with_vision_tracker
    {| VisionTracker.is_running :=
         VisionTracker.is_running (vision_tracker self);
       VisionTracker.detections := detections |} self);!
  match detections with
  | [] => ret tt
  | _ => try_except (on_vision_detection in_loop now detections)
           (λ _, Some (ret tt))
  end.

(** *** Everything that can happen to a backend object *)

Inductive op : Type :=
  | OpInitializeMqtt (connect_ok : bool)
  | OpMqttConnect (rc : Z)
  | OpMqttMessage (in_loop : bool) (msg : mqtt_message)
  | OpMqttDisconnect
  | OpTrackingCycle (in_loop : bool) (now : string)
      (detections : list VisionTracker.detection)
  | OpSetMode (mode : pyval)
  | OpManualServo (servo_id angle : Z)
  | OpManualMotor (speed : Z)
  | OpEmergencyStop
  | OpMoveToHome
  | OpWebsocketEnter (websocket : nat)
  | OpWebsocketExit (websocket : nat)
  | OpPeerClose (websocket : nat)
  | OpBroadcastStatus (schedule : list turn)
  | OpBroadcastDetections (schedule : list turn)
      (detections : list VisionTracker.detection)
  | OpStartVision
  | OpStopVision.

Definition run {L : Libm} (o : op) : t → t :=
  match o with
  | OpInitializeMqtt ok => exec (initialize_mqtt ok)
  | OpMqttConnect rc => exec (on_mqtt_connect rc)
  | OpMqttMessage in_loop msg => exec (on_mqtt_message in_loop msg)
  | OpMqttDisconnect => exec on_mqtt_disconnect
  | OpTrackingCycle in_loop now ds => exec (tracking_cycle in_loop now ds)
  | OpSetMode mode => exec (set_mode mode)
  | OpManualServo servo_id angle => exec (manual_servo_control servo_id angle)
  | OpManualMotor speed => exec (manual_motor_control speed)
  | OpEmergencyStop => exec emergency_stop
  | OpMoveToHome => exec move_to_home
  | OpWebsocketEnter ws => exec (websocket_handler_enter ws)
  | OpWebsocketExit ws => exec (websocket_handler_exit ws)
  | OpPeerClose ws => exec (peer_close ws)
  | OpBroadcastStatus schedule => exec (broadcast_status schedule)
  | OpBroadcastDetections schedule ds =>
      exec (broadcast_detections schedule ds)
  | OpStartVision => exec start_vision_tracking
  | OpStopVision => exec stop_vision_tracking
  end.

Inductive reachable {L : Libm} : t → Prop :=
  | reachable_init : reachable init
  | reachable_run o self : reachable self → reachable (run o self).

Definition writes_mode (o : op) : bool :=
  match o with
  | OpSetMode _ => true
  | _ => false
  end.

(** A method that leaves [system_status['mode']] as it found it,
    whether it returns or raises. *)
Definition keeps_mode {A} (m : M A) : Prop :=
  ∀ self, system_status (snd (m self)) !! "mode" = system_status self !! "mode".

End SmartArmBackend.

(** ** Inputs used in the examples *)

Module Examples.
Import Float64 VisionTracker SmartArmBackend.

Definition det_at (i : Z) (p : float * float) : detection :=
  {| id := i; class_id := 39; class_name := "bottle"; confidence := f0_9;
     bbox := (0, 0, 10, 10); center := (5, 5);
     relative_position := p; size := (10, 10); timestamp := f0_0 |}.

Definition tracker_of (ds : list detection) : VisionTracker.t :=
  {| is_running := true; detections := ds |}.

(** A message on the controller's status topic. *)
Definition status_msg (p : pyval) : mqtt_message :=
  {| topic := STATUS_TOPIC; payload := Ok p |}.

(** [{"servos":[10,20,30,40,50],"distance":12.5,"motor_speed":3}] *)
Definition example_servos : pyval :=
  PList [PInt 10; PInt 20; PInt 30; PInt 40; PInt 50].

Definition example_payload : gmap string pyval :=
  {[ "servos" := example_servos;
     "distance" := PFloat f12_5;
     "motor_speed" := PInt 3 ]}.

(** The names the status handler reads from a payload, and the names
    of the status fields. *)
Definition wire_fields : list string := ["servos"; "distance"; "motor_speed"].

Definition schema_fields : list string :=
  ["mode"; "vision_active"; "mqtt_connected"; "last_detection";
   "servo_angles"; "distance_cm"; "motor_speed"; "grab_count";
   "error_message"].

(** A backend whose broker client exists, in its initial auto mode and
    after a switch to manual mode. *)
Definition auto_backend : SmartArmBackend.t :=
  exec (initialize_mqtt true) init.

Definition manual_backend : SmartArmBackend.t :=
  exec (set_mode (PStr "manual")) auto_backend.


(** The two detections of the tie example, at (0.1, 0.1) and (0.9, 0.9). *)
Definition tie_tracker : VisionTracker.t :=
  tracker_of [det_at 0 (f0_1, f0_1); det_at 1 (f0_9, f0_9)].


End Examples.

(** ** data_logger.py *)

Module DataLogger.
Import Float64.

Definition csv_headers : list string :=
  ["timestamp"; "mode"; "objects_detected"; "grab_success"; "distance_cm";
   "servo_base"; "servo_shoulder"; "servo_elbow"; "servo_wrist";
   "gripper_state"; "detection_confidence"; "object_class";
   "object_position_x"; "object_position_y"; "execution_time_ms";
   "error_message"].

(** The truth value of a Python value, as [if v:] takes it. *)
Definition py_truthy (v : pyval) : bool :=
  match v with
  | PNone => false
  | PBool b => b
  | PInt z => negb (z =? 0)
  | PFloat (S754_zero _) => false
  | PFloat _ => true
  | PStr s => negb (bool_decide (s = ""))
  | PList l => negb (bool_decide (length l = 0%nat))
  | PDict d => negb (bool_decide (size d = 0%nat))
  end.

(** [v[i]] for a literal index [i >= 0]; [None] when the subscript
    raises: out of range, a dict (its keys are strings), or a value that
    has no subscript. *)
Definition py_subscript (v : pyval) (i : nat) : option pyval :=
  match v with
  | PList l => l !! i
  | PStr s => (λ c, PStr (String c EmptyString)) <$> String.get i s
  | _ => None
  end.

(** [d.get(key, default)] where an exception is only passed on. *)
Definition get_opt (d : pyval) (key : string) (dflt : pyval) : option pyval :=
  match py_get d key dflt with
  | Ok v => Some v
  | Raise _ => None
  end.

(** The detection cells of a row: confidence, class, position x and y. *)
Definition detection_cells (detection_data : pyval) : option (list pyval) :=
  if py_truthy detection_data then
    detection_confidence ← get_opt detection_data "confidence" (PFloat f0_0);
    object_class ← get_opt detection_data "class_name" (PStr "");
    rel_pos ← get_opt detection_data "relative_position"
                 (PList [PFloat f0_0; PFloat f0_0]);
    object_position_x ← py_subscript rel_pos 0;
    object_position_y ← py_subscript rel_pos 1;
    Some [detection_confidence; object_class;
          object_position_x; object_position_y]
  else Some [PFloat f0_0; PStr ""; PFloat f0_0; PFloat f0_0].

(** [servo_angles[i] if len(servo_angles) > i else 90] *)
Definition servo_cell (servo_angles : list Z) (i : nat) : pyval :=
  PInt (if bool_decide (i < length servo_angles)%nat
        then default 90 (servo_angles !! i) else 90).

(** The list [row_data] of [log_operation], with [timestamp] the value
    of [datetime.now().isoformat()]; [None] when building it raises. *)
Definition row_data (timestamp : string) (mode : pyval) (objects_detected : Z)
    (grab_success : bool) (distance_cm : float)
    (servo_angles : option (list Z)) (gripper_state : string)
    (detection_data : pyval) (execution_time_ms : float)
    (error_message : string) : option (list pyval) :=
  let servo_angles := default [90; 90; 90; 90; 90] servo_angles in
  cells ← detection_cells detection_data;
  Some ([PStr timestamp; mode; PInt objects_detected; PBool grab_success;
         PFloat distance_cm;
         servo_cell servo_angles 0; servo_cell servo_angles 1;
         servo_cell servo_angles 2; servo_cell servo_angles 3;
         PStr gripper_state]
        ++ cells ++ [PFloat execution_time_ms; PStr error_message]).

(** The logger: the rows of its CSV file below the header line. *)
Record t : Type := { rows : list (list pyval) }.

(** [log_operation]; [writable] tells whether opening the file for
    appending and writing the row go through.  Every exception is caught
    inside, so the call always returns. *)
Definition log_operation (writable : bool) (timestamp : string) (mode : pyval)
    (objects_detected : Z) (grab_success : bool) (distance_cm : float)
    (servo_angles : option (list Z)) (gripper_state : string)
    (detection_data : pyval) (execution_time_ms : float)
    (error_message : string) (self : t) : t :=
  match row_data timestamp mode objects_detected grab_success distance_cm
          servo_angles gripper_state detection_data execution_time_ms
          error_message with
  | Some row => if writable then {| rows := rows self ++ [row] |} else self
  | None => self
  end.

(** The call made by the backend's detection callback:
    [log_operation(mode=..., objects_detected=..., detection_data=...)]. *)
Definition log_detection (writable : bool) (timestamp : string)
    (entry : pyval * Z * VisionTracker.detection) (self : t) : t :=
  let '(mode, objects_detected, d) := entry in
  log_operation writable timestamp mode objects_detected false f0_0 None
    "unknown" (detection_to_pyval d) f0_0 "" self.

End DataLogger.

(** ** main.py: the control route *)

Module ControlApi.
Import SmartArmBackend.

Section WithFormat.

(** [format(v)], the text an f-string field [{v}] yields, and [str(e)]
    for a caught exception: both are Python's own and taken as given. *)
Variable py_format : pyval → string.
Variable exn_text : exn → string.

(** [manual_servo_control] as the route calls it, with whatever the
    request holds under [servo_id] and [angle]. *)
Definition manual_servo_control_any (servo_id angle : pyval) : M bool :=
  mode ←! status_getitem "mode";
  if py_ne_str mode "manual" then ret false
  else
    self ←! get;
    match mqtt_client self with
    | Some client =>
        publish client CONTROL_TOPIC
          ("SERVO " +:+ py_format servo_id +:+ " " +:+ py_format angle);!
        ret true
    | None => ret false
    end.

(** [manual_motor_control] as the route calls it. *)
Definition manual_motor_control_any (speed : pyval) : M bool :=
  mode ←! status_getitem "mode";
  if py_ne_str mode "manual" then ret false
  else
    self ←! get;
    match mqtt_client self with
    | Some client =>
        publish client CONTROL_TOPIC ("MOTOR " +:+ py_format speed);!
        ret true
    | None => ret false
    end.

(** [command == name] *)
Definition command_is (command : pyval) (name : string) : bool :=
  match command with
  | PStr s => bool_decide (s = name)
  | _ => false
  end.

(** [control_system], the handler of [POST /api/control].  [data] is the
    outcome of [request.get_json()]; the result is the JSON body given to
    [jsonify] and the HTTP status. *)
Definition control_system (data : pyres pyval) : M (pyval * Z) :=
  try_except
    (data ←! lift data;
     command ←! lift (py_get data "command" PNone);
     if command_is command "set_mode" then
       mode ←! lift (py_get data "mode" (PStr "auto"));
       set_mode mode;!
       ret (PDict {[ "success" := PBool true; "mode" := mode ]}, 200)
     else if command_is command "manual_servo" then
       servo_id ←! lift (py_get data "servo_id" PNone);
       angle ←! lift (py_get data "angle" PNone);
       success ←! manual_servo_control_any servo_id angle;
       ret (PDict {[ "success" := PBool success ]}, 200)
     else if command_is command "manual_motor" then
       speed ←! lift (py_get data "speed" (PInt 0));
       success ←! manual_motor_control_any speed;
       ret (PDict {[ "success" := PBool success ]}, 200)
     else if command_is command "emergency_stop" then
       success ←! emergency_stop;
       ret (PDict {[ "success" := PBool success ]}, 200)
     else if command_is command "home_position" then
       success ←! move_to_home;
       ret (PDict {[ "success" := PBool success ]}, 200)
     else ret (PDict {[ "error" := PStr "Unknown command" ]}, 400))
    (λ e, Some (ret (PDict {[ "error" := PStr (exn_text e) ]}, 500))).

End WithFormat.

(** The commands the route knows. *)
Definition known_commands : list string :=
  ["set_mode"; "manual_servo"; "manual_motor"; "emergency_stop";
   "home_position"].

(** A formatter that is right on integers, strings, [None] and booleans,
    and an exception text, for the examples. *)
Definition format_plain (v : pyval) : string :=
  match v with
  | PInt z => pretty z
  | PStr s => s
  | PNone => "None"
  | PBool true => "True"
  | PBool false => "False"
  | _ => ""
  end.

Definition exn_name (e : exn) : string :=
  match e with
  | OverflowError => "OverflowError"
  | AttributeError => "AttributeError"
  | KeyError => "KeyError"
  | RuntimeError => "RuntimeError"
  | JSONDecodeError => "JSONDecodeError"
  | ConnectionClosed => "ConnectionClosed"
  end.

End ControlApi.

(** ** Vocabulary of the further properties *)

Module Vocabulary.
Import SmartArmBackend.

(** A method that keeps a property of the backend, whether it returns
    or raises. *)
Definition preserves {A} (I : SmartArmBackend.t → Prop) (m : M A) : Prop :=
  ∀ self, I self → I (snd (m self)).

(** The key set of the status dictionary built by [__init__]. *)
Definition schema_keys : gset string := list_to_set Examples.schema_fields.

(** The status dictionary has exactly the keys it was built with. *)
Definition well_keyed (self : SmartArmBackend.t) : Prop :=
  dom (system_status self) = schema_keys.

(** What was handed to [publish] so far; nothing without a client. *)
Definition published_of (self : SmartArmBackend.t) : list (string * string) :=
  match mqtt_client self with
  | Some client => published client
  | None => []
  end.

(** The operations that use the broker client. *)
Definition uses_client (o : op) : bool :=
  match o with
  | OpInitializeMqtt _ | OpMqttConnect _ | OpSetMode _ | OpManualServo _ _
  | OpManualMotor _ | OpEmergencyStop | OpMoveToHome => true
  | _ => false
  end.

(** The command texts that do not move a servo or the motor. *)
Definition mode_free_commands : list string :=
  ["MODE AUTO"; "MODE MANUAL"; "STOP"; "HOME"].

(** Everything of the backend but its websocket connections and their
    registration is the same. *)
Definition same_but_connections (self self' : SmartArmBackend.t) : Prop :=
  vision_tracker self' = vision_tracker self ∧
  data_logger self' = data_logger self ∧
  mqtt_client self' = mqtt_client self ∧
  system_status self' = system_status self ∧
  tasks self' = tasks self.

(** The outcome [self'] of one broadcast round of [message] from
    [self]: the connections still registered are those that were
    registered and open, exactly these have received the message, no
    connection was closed or opened, and nothing else changed. *)
Definition round_outcome (message : pyval) (self self' : SmartArmBackend.t)
  : Prop :=
  (∀ c, c ∈ websocket_clients self' ↔
        c ∈ websocket_clients self ∧ closed (sockets self c) = false) ∧
  (∀ c, received (sockets self' c) =
        if decide (c ∈ websocket_clients self ∧ closed (sockets self c) = false)
        then received (sockets self c) ++ [message]
        else received (sockets self c)) ∧
  (∀ c, closed (sockets self' c) = closed (sockets self c)) ∧
  same_but_connections self self'.

(** A property of the backend that does not look at the connections. *)
Definition connection_blind (I : SmartArmBackend.t → Prop) : Prop :=
  (∀ self w, I self → I (with_websocket_clients w self)) ∧
  (∀ self k, I self → I (with_sockets k self)).

End Vocabulary.

(** * Properties *)

(** ** The controller status handler *)

Section StatusHandler.
Import Float64 SmartArmBackend Examples.

(** What the handler does to a dict payload on the status topic. *)
Lemma on_mqtt_message_status_dict in_loop (p : gmap string pyval) self :
  on_mqtt_message in_loop (status_msg (PDict p)) self =
  let status' :=
    dict_update (system_status self)
      {[ "servo_angles" := default default_servos (p !! "servos");
         "distance_cm" := default (PFloat f0_0) (p !! "distance");
         "motor_speed" := default (PInt 0) (p !! "motor_speed") ]} in
  (Ok tt,
   if in_loop
   then with_tasks (tasks self ++ [BroadcastStatus])
          (with_system_status status' self)
   else with_system_status status' self).
Proof. by destruct in_loop. Qed.

Lemma written_lookup (st : gmap string pyval) (a b c : pyval) (k : string) :
  dict_update st {[ "servo_angles" := a; "distance_cm" := b;
                    "motor_speed" := c ]} !! k =
  if decide (k = "servo_angles") then Some a
  else if decide (k = "distance_cm") then Some b
  else if decide (k = "motor_speed") then Some c
  else st !! k.
Proof.
  unfold dict_update. rewrite lookup_union.
  repeat case_decide; simplify_map_eq; try done;
    by destruct (st !! _).
Qed.

(** The handler catches every exception: it always returns. *)
Lemma on_mqtt_message_returns in_loop msg self :
  on_mqtt_message in_loop msg self =
  (Ok tt, exec (on_mqtt_message in_loop msg) self).
Proof.
  destruct msg as [tp [[]|e]], in_loop; unfold on_mqtt_message, exec,
    try_except, bind, lift; cbn; try case_bool_decide; reflexivity.
Qed.

(** A message on another topic changes nothing. *)
Lemma on_mqtt_message_other_topic in_loop tp pl self :
  tp ≠ STATUS_TOPIC →
  exec (on_mqtt_message in_loop {| topic := tp; payload := pl |}) self = self.
Proof.
  intros Htp. destruct pl as [v|e]; unfold on_mqtt_message, exec,
    try_except, bind, lift; cbn; [|reflexivity].
  by rewrite bool_decide_eq_false_2.
Qed.

(** The status fields after a dict payload on the status topic. *)
Lemma status_after_message in_loop (p : gmap string pyval) self k :
  system_status (exec (on_mqtt_message in_loop (status_msg (PDict p))) self) !! k =
  if decide (k = "servo_angles") then Some (default default_servos (p !! "servos"))
  else if decide (k = "distance_cm") then Some (default (PFloat f0_0) (p !! "distance"))
  else if decide (k = "motor_speed") then Some (default (PInt 0) (p !! "motor_speed"))
  else system_status self !! k.
Proof.
  unfold exec. rewrite on_mqtt_message_status_dict. cbn zeta.
  destruct in_loop; cbn [snd system_status with_tasks with_system_status];
    apply written_lookup.
Qed.

(** C1: a status payload carrying [servos], [distance] and
    [motor_speed] is taken over by the status handler: the handler
    returns normally, [servo_angles], [distance_cm] and [motor_speed]
    hold the payload's values afterwards, and every other field of the
    system status ([mode], [vision_active], [mqtt_connected],
    [last_detection], [grab_count], [error_message] and any other key)
    keeps its prior value. *)
Theorem on_mqtt_message_roundtrip (in_loop : bool) (self : SmartArmBackend.t)
    (p : gmap string pyval) (servos distance motor_speed : pyval) :
  p !! "servos" = Some servos →
  p !! "distance" = Some distance →
  p !! "motor_speed" = Some motor_speed →
  ∃ self',
    on_mqtt_message in_loop (status_msg (PDict p)) self = (Ok tt, self') ∧
    system_status self' !! "servo_angles" = Some servos ∧
    system_status self' !! "distance_cm" = Some distance ∧
    system_status self' !! "motor_speed" = Some motor_speed ∧
    Forall (λ k, system_status self' !! k = system_status self !! k)
      ["mode"; "vision_active"; "mqtt_connected"; "last_detection";
       "grab_count"; "error_message"] ∧
    ∀ k, k ∉ ["servo_angles"; "distance_cm"; "motor_speed"] →
         system_status self' !! k = system_status self !! k.
Proof.
  intros Hs Hd Hm. eexists. split; [apply on_mqtt_message_returns|].
  repeat split; try (rewrite status_after_message, ?Hs, ?Hd, ?Hm; reflexivity).
  - repeat constructor; rewrite status_after_message; reflexivity.
  - intros k Hk. rewrite status_after_message.
    repeat case_decide; subst; try reflexivity; exfalso; apply Hk; set_solver.
Qed.

Lemma on_mqtt_message_roundtrip_witness :
  ∃ self',
    on_mqtt_message false (status_msg (PDict example_payload)) manual_backend
      = (Ok tt, self') ∧
    system_status self' !! "servo_angles" = Some example_servos ∧
    system_status self' !! "distance_cm" = Some (PFloat f12_5) ∧
    system_status self' !! "motor_speed" = Some (PInt 3) ∧
    Forall (λ k, system_status self' !! k = system_status manual_backend !! k)
      ["mode"; "vision_active"; "mqtt_connected"; "last_detection";
       "grab_count"; "error_message"] ∧
    ∀ k, k ∉ ["servo_angles"; "distance_cm"; "motor_speed"] →
         system_status self' !! k = system_status manual_backend !! k.
Proof.
  apply (on_mqtt_message_roundtrip false manual_backend example_payload);
    reflexivity.
Defined.

(** C5, as the code has it: a key missing from a status payload does
    not leave its field alone; the field is set to the key's default,
    [[90, 90, 90, 90, 90]] for [servos], [0.0] for [distance] and [0]
    for [motor_speed]. *)
Theorem on_mqtt_message_omitted_defaults (in_loop : bool)
    (self : SmartArmBackend.t) (p : gmap string pyval) :
  let self' := exec (on_mqtt_message in_loop (status_msg (PDict p))) self in
  (p !! "servos" = None →
     system_status self' !! "servo_angles" = Some default_servos) ∧
  (p !! "distance" = None →
     system_status self' !! "distance_cm" = Some (PFloat f0_0)) ∧
  (p !! "motor_speed" = None →
     system_status self' !! "motor_speed" = Some (PInt 0)).
Proof.
  cbn zeta. repeat split; intros H; by rewrite status_after_message, H.
Qed.

(** The state after the round-trip example, to which a payload that
    only carries [distance] is then applied. *)
Lemma on_mqtt_message_omitted_defaults_witness :
  let prior :=
    exec (on_mqtt_message false (status_msg (PDict example_payload))) init in
  let self' :=
    exec (on_mqtt_message false
            (status_msg (PDict {[ "distance" := PFloat f12_5 ]}))) prior in
  system_status self' !! "servo_angles" = Some default_servos.
Proof.
  cbn zeta. apply on_mqtt_message_omitted_defaults. reflexivity.
Defined.

(** C5 as stated fails: after the round-trip example, a payload that
    omits [servos] does not leave [servo_angles] at
    [[10, 20, 30, 40, 50]]. *)
Lemma omitted_servos_not_retained :
  let prior :=
    exec (on_mqtt_message false (status_msg (PDict example_payload))) init in
  let p : gmap string pyval := {[ "distance" := PFloat f12_5 ]} in
  let self' := exec (on_mqtt_message false (status_msg (PDict p))) prior in
  p !! "servos" = None ∧
  system_status prior !! "servo_angles" = Some example_servos ∧
  system_status self' !! "servo_angles" = Some default_servos ∧
  system_status self' !! "servo_angles" ≠ system_status prior !! "servo_angles".
Proof.
  cbn zeta. repeat split. vm_compute. discriminate.
Qed.

(** C6: a payload field the handler does not know is dropped without
    effect: the handler returns normally, the outcome is the one for
    the payload without that field, and the system status has the same
    entry (or none) under that name as before. *)
Theorem on_mqtt_message_unknown_field (in_loop : bool) (tp : string)
    (self : SmartArmBackend.t) (p : gmap string pyval) (k : string) (v : pyval) :
  k ∉ wire_fields →
  k ∉ schema_fields →
  let msg := {| topic := tp; payload := Ok (PDict (<[k:=v]> p)) |} in
  let msg0 := {| topic := tp; payload := Ok (PDict (delete k p)) |} in
  ∃ self',
    on_mqtt_message in_loop msg self = (Ok tt, self') ∧
    on_mqtt_message in_loop msg0 self = (Ok tt, self') ∧
    system_status self' !! k = system_status self !! k ∧
    dom (system_status self') ⊆
      dom (system_status self) ∪ list_to_set schema_fields.
Proof.
  intros Hw Hs msg msg0.
  assert (Hk : k ≠ "servos" ∧ k ≠ "distance" ∧ k ≠ "motor_speed")
    by (unfold wire_fields in Hw; rewrite !not_elem_of_cons in Hw; tauto).
  assert (Hk' : k ≠ "servo_angles" ∧ k ≠ "distance_cm")
    by (unfold schema_fields in Hs; rewrite !not_elem_of_cons in Hs; tauto).
  destruct Hk as (H1 & H2 & H3), Hk' as (H4 & H5).
  assert (Hsame : on_mqtt_message in_loop msg self =
                  on_mqtt_message in_loop msg0 self).
  { subst msg msg0. destruct (decide (tp = STATUS_TOPIC)) as [->|Htp].
    - change {| topic := STATUS_TOPIC; payload := Ok ?x |} with (status_msg x).
      rewrite !on_mqtt_message_status_dict.
      by rewrite !lookup_insert_ne, !lookup_delete_ne by done.
    - by rewrite !on_mqtt_message_returns, !on_mqtt_message_other_topic. }
  exists (exec (on_mqtt_message in_loop msg) self).
  split; [apply on_mqtt_message_returns|].
  split; [rewrite <- Hsame; apply on_mqtt_message_returns|].
  subst msg msg0. destruct (decide (tp = STATUS_TOPIC)) as [->|Htp].
  - change {| topic := STATUS_TOPIC; payload := Ok ?x |} with (status_msg x).
    split.
    + rewrite status_after_message.
      destruct (decide (k = "servo_angles")); [contradiction|].
      destruct (decide (k = "distance_cm")); [contradiction|].
      destruct (decide (k = "motor_speed")); [contradiction|].
      reflexivity.
    + intros x [y Hx]%elem_of_dom. rewrite status_after_message in Hx.
      repeat case_decide; subst;
        [apply elem_of_union_r, elem_of_list_to_set; unfold schema_fields;
         rewrite !elem_of_cons; tauto..|].
      apply elem_of_union_l, elem_of_dom. eauto.
  - rewrite on_mqtt_message_other_topic by done.
    split; [reflexivity | apply union_subseteq_l].
Qed.

Lemma on_mqtt_message_unknown_field_witness :
  ∃ self',
    on_mqtt_message false
      {| topic := STATUS_TOPIC;
         payload := Ok (PDict (<["gripper":=PStr "open"]> example_payload)) |}
      manual_backend = (Ok tt, self') ∧
    on_mqtt_message false
      {| topic := STATUS_TOPIC;
         payload := Ok (PDict (delete "gripper" example_payload)) |}
      manual_backend = (Ok tt, self') ∧
    system_status self' !! "gripper" = system_status manual_backend !! "gripper" ∧
    dom (system_status self') ⊆
      dom (system_status manual_backend) ∪ list_to_set schema_fields.
Proof.
  apply (on_mqtt_message_unknown_field false STATUS_TOPIC manual_backend
           example_payload "gripper" (PStr "open"));
    unfold wire_fields, schema_fields; rewrite !not_elem_of_cons;
    repeat split; (discriminate || apply not_elem_of_nil).
Defined.

End StatusHandler.

(** ** The command bridge *)

Section Commands.
Import SmartArmBackend Examples.

Lemma py_ne_str_false v s : py_ne_str v s = false ↔ v = PStr s.
Proof.
  destruct v; cbn; try (split; [discriminate|congruence]).
  rewrite bool_decide_eq_false. split.
  - intros H. f_equal. by destruct (decide (s0 = s)).
  - intros [= ->] H. by apply H.
Qed.

Lemma py_ne_str_true v s : py_ne_str v s = true ↔ v ≠ PStr s.
Proof.
  rewrite <- py_ne_str_false. destruct (py_ne_str v s); split; congruence.
Qed.

(** C3: [manual_servo_control] is refused outside manual mode: it
    returns [False], publishes nothing and leaves the backend as it
    was.  In manual mode with a broker client it returns [True] and the
    client has one more published message, on [smartarm/control], whose
    text is [SERVO], the servo id and the angle in decimal, separated by
    single spaces; nothing else of the backend changes.  For servo 2 and
    angle 45 the text is [SERVO 2 45]. *)
Theorem manual_servo_control_gated (self : SmartArmBackend.t)
    (servo_id angle : Z) (mode : pyval) :
  system_status self !! "mode" = Some mode →
  (mode ≠ PStr "manual" →
     manual_servo_control servo_id angle self = (Ok false, self)) ∧
  (mode = PStr "manual" → ∀ client, mqtt_client self = Some client →
     manual_servo_control servo_id angle self =
     (Ok true,
      with_mqtt_client
        (Some {| subscriptions := subscriptions client;
                 published :=
                   published client ++
                   [("smartarm/control",
                     "SERVO " +:+ pretty servo_id +:+ " " +:+ pretty angle)] |})
        self) ∧
     (mqtt_client (exec (manual_servo_control 2 45) self) =
        Some {| subscriptions := subscriptions client;
                published :=
                  published client ++ [("smartarm/control", "SERVO 2 45")] |})).
Proof.
  intros Hmode. split.
  - intros Hne%py_ne_str_true.
    unfold manual_servo_control, status_getitem, bind, get, lift, py_getitem.
    by rewrite Hmode, Hne.
  - intros Heq%py_ne_str_false client Hclient.
    unfold exec, manual_servo_control, status_getitem, bind, get, lift,
      py_getitem.
    rewrite Hmode, Heq, Hclient. split; reflexivity.
Qed.

(** In auto mode the request is refused; in manual mode [SERVO 2 45]
    follows the earlier [MODE MANUAL] on the control topic, and servo 4
    at angle 180 gives [SERVO 4 180]. *)
Lemma manual_servo_control_gated_witness :
  manual_servo_control 2 45 auto_backend = (Ok false, auto_backend) ∧
  fst (manual_servo_control 2 45 manual_backend) = Ok true ∧
  mqtt_client (exec (manual_servo_control 2 45) manual_backend) =
    Some {| subscriptions := [];
            published := [("smartarm/control", "MODE MANUAL");
                          ("smartarm/control", "SERVO 2 45")] |} ∧
  mqtt_client (exec (manual_servo_control 4 180) manual_backend) =
    Some {| subscriptions := [];
            published := [("smartarm/control", "MODE MANUAL");
                          ("smartarm/control", "SERVO 4 180")] |}.
Proof.
  split.
  - apply (manual_servo_control_gated auto_backend 2 45 (PStr "auto"));
      [reflexivity | discriminate].
  - pose proof (λ i a,
      proj2 (manual_servo_control_gated manual_backend i a
               (PStr "manual") eq_refl)
        eq_refl {| subscriptions := [];
                   published := [("smartarm/control", "MODE MANUAL")] |}
        eq_refl) as H.
    unfold exec.
    rewrite (proj1 (H 2 45)), (proj1 (H 4 180)).
    split; [reflexivity|]. split; reflexivity.
Defined.

(** C10: [emergency_stop] and [move_to_home] do not look at the mode.
    With a broker client each returns [True] and the client has one more
    published message, [STOP] respectively [HOME] on [smartarm/control];
    without one each returns [False] and changes nothing; [False] is
    returned only then; the system status is the same afterwards in
    every case. *)
Theorem stop_and_home_ungated (self : SmartArmBackend.t) :
  match mqtt_client self with
  | Some client =>
      emergency_stop self =
        (Ok true,
         with_mqtt_client
           (Some {| subscriptions := subscriptions client;
                    published :=
                      published client ++ [("smartarm/control", "STOP")] |})
           self) ∧
      move_to_home self =
        (Ok true,
         with_mqtt_client
           (Some {| subscriptions := subscriptions client;
                    published :=
                      published client ++ [("smartarm/control", "HOME")] |})
           self)
  | None =>
      emergency_stop self = (Ok false, self) ∧
      move_to_home self = (Ok false, self)
  end ∧
  (fst (emergency_stop self) = Ok false ↔ mqtt_client self = None) ∧
  (fst (move_to_home self) = Ok false ↔ mqtt_client self = None) ∧
  system_status (exec emergency_stop self) = system_status self ∧
  system_status (exec move_to_home self) = system_status self.
Proof.
  unfold emergency_stop, move_to_home, exec, bind, get.
  destruct (mqtt_client self) as [client|] eqn:Hc; cbn; rewrite ?Hc; cbn;
    repeat split; congruence.
Qed.

(** In auto mode, with a broker client that has published nothing yet,
    the stop is accepted and [STOP] is the one published message; in
    manual mode [HOME] follows the earlier [MODE MANUAL]; a backend
    without a client refuses both and stays as it was. *)
Lemma stop_and_home_ungated_witness :
  system_status auto_backend !! "mode" = Some (PStr "auto") ∧
  emergency_stop auto_backend =
    (Ok true,
     with_mqtt_client
       (Some {| subscriptions := [];
                published := [("smartarm/control", "STOP")] |})
       auto_backend) ∧
  move_to_home manual_backend =
    (Ok true,
     with_mqtt_client
       (Some {| subscriptions := [];
                published := [("smartarm/control", "MODE MANUAL");
                              ("smartarm/control", "HOME")] |})
       manual_backend) ∧
  emergency_stop init = (Ok false, init) ∧
  move_to_home init = (Ok false, init).
Proof.
  split; [reflexivity|].
  split; [exact (proj1 (proj1 (stop_and_home_ungated auto_backend)))|].
  split; [exact (proj2 (proj1 (stop_and_home_ungated manual_backend)))|].
  exact (proj1 (stop_and_home_ungated init)).
Defined.

End Commands.

(** ** The mode field *)

Section ModeInvariant.
Import SmartArmBackend.

Context {L : Float64.Libm}.

Lemma keeps_mode_ret {A} (a : A) : keeps_mode (ret a).
Proof. by intros self. Qed.

Lemma keeps_mode_raise {A} e : keeps_mode (@raise A e).
Proof. by intros self. Qed.

Lemma keeps_mode_lift {A} (r : pyres A) : keeps_mode (lift r).
Proof. by intros self. Qed.

Lemma keeps_mode_get : keeps_mode get.
Proof. by intros self. Qed.

Lemma keeps_mode_modify (f : SmartArmBackend.t → SmartArmBackend.t) :
  (∀ self, system_status (f self) !! "mode" = system_status self !! "mode") →
  keeps_mode (modify f).
Proof. intros Hf self. apply Hf. Qed.

Lemma keeps_mode_bind {A B} (m : M A) (k : A → M B) :
  keeps_mode m → (∀ a, keeps_mode (k a)) → keeps_mode (bind m k).
Proof.
  intros Hm Hk self. unfold bind. specialize (Hm self).
  destruct (m self) as [[a|e] self1]; cbn in *; [|done].
  by rewrite Hk.
Qed.

Lemma keeps_mode_try_except {A} (m : M A) (h : exn → option (M A)) :
  keeps_mode m → (∀ e handler, h e = Some handler → keeps_mode handler) →
  keeps_mode (try_except m h).
Proof.
  intros Hm Hh self. unfold try_except. specialize (Hm self).
  destruct (m self) as [[a|e] self1]; cbn in *; [done|].
  destruct (h e) as [handler|] eqn:He; [|done].
  by rewrite (Hh _ _ He).
Qed.

Lemma keeps_mode_status_setitem key value :
  key ≠ "mode" → keeps_mode (status_setitem key value).
Proof.
  intros Hkey. apply keeps_mode_modify. intros self. cbn.
  by apply lookup_insert_ne.
Qed.

Ltac keeps_mode_step :=
  lazymatch goal with
  | |- keeps_mode (ret _) => apply keeps_mode_ret
  | |- keeps_mode (raise _) => apply keeps_mode_raise
  | |- keeps_mode (lift _) => apply keeps_mode_lift
  | |- keeps_mode get => apply keeps_mode_get
  | |- keeps_mode (status_setitem _ _) =>
      apply keeps_mode_status_setitem; discriminate
  | |- keeps_mode (modify _) =>
      apply keeps_mode_modify; intros ?;
      cbn [system_status with_vision_tracker with_data_logger
           with_mqtt_client with_websocket_clients with_sockets with_tasks];
      lazymatch goal with |- ?x = ?x => reflexivity end
  | |- keeps_mode (bind _ _) => apply keeps_mode_bind; [|intros ?]
  | |- keeps_mode (try_except _ _) =>
      apply keeps_mode_try_except;
      [|let e := fresh "e" in let He := fresh "He" in
        intros e ? He; destruct e; simplify_eq He; intros <-]
  | |- keeps_mode (let _ := _ in _) => cbn zeta
  | |- keeps_mode (match ?x with _ => _ end) => destruct x
  | |- keeps_mode (status_getitem _) => unfold status_getitem
  | |- keeps_mode (publish _ _ _) => unfold publish
  | |- keeps_mode (subscribe _ _) => unfold subscribe
  | |- keeps_mode (create_task _ _) => unfold create_task
  | |- keeps_mode (log_operation _ _ _) => unfold log_operation
  | |- keeps_mode (send _ _) => unfold send
  end.

Ltac keeps_mode := repeat keeps_mode_step.

Lemma keeps_mode_send_all message clients disconnected :
  keeps_mode (send_all message clients disconnected).
Proof.
  revert disconnected.
  induction clients as [|client rest IH]; intros disconnected; cbn [send_all].
  - apply keeps_mode_ret.
  - apply keeps_mode_bind; [|intros failed; apply IH].
    keeps_mode.
Qed.

Lemma keeps_mode_run_other o : keeps_mode (run_other o).
Proof.
  destruct o; cbn [run_other]; unfold websocket_handler_exit, peer_close;
    keeps_mode.
Qed.

Lemma keeps_mode_others steps : keeps_mode (others steps).
Proof.
  induction steps as [|o steps IH]; cbn [others]; [apply keeps_mode_ret|].
  apply keeps_mode_bind; [apply keeps_mode_get|intros self].
  apply keeps_mode_bind; [apply keeps_mode_run_other|intros ?].
  apply keeps_mode_bind; [apply keeps_mode_get|intros self'].
  apply keeps_mode_bind; [apply IH|intros ?]. apply keeps_mode_ret.
Qed.

Lemma keeps_mode_send_turns message used schedule clients disconnected :
  keeps_mode (send_turns message used schedule clients disconnected).
Proof.
  revert clients disconnected.
  induction schedule as [|turn schedule IH]; intros clients disconnected;
    cbn [send_turns]; [apply keeps_mode_send_all|].
  destruct clients as [|client rest]; [apply keeps_mode_ret|].
  apply keeps_mode_bind; [apply keeps_mode_others|intros changed_before].
  apply keeps_mode_bind; [keeps_mode|intros failed].
  apply keeps_mode_bind; [apply keeps_mode_others|intros changed_after].
  apply keeps_mode_bind; [apply keeps_mode_get|intros self].
  case_bool_decide; [apply keeps_mode_raise|apply IH].
Qed.

Lemma keeps_mode_broadcast message schedule :
  keeps_mode (broadcast message schedule).
Proof.
  unfold broadcast.
  apply keeps_mode_bind; [apply keeps_mode_get|intros self].
  apply keeps_mode_bind; [apply keeps_mode_send_turns|intros ?].
  keeps_mode.
Qed.

Lemma keeps_mode_dict_update (st new : gmap string pyval) :
  new !! "mode" = None → dict_update st new !! "mode" = st !! "mode".
Proof.
  intros Hnew. unfold dict_update. rewrite lookup_union, Hnew.
  by destruct (st !! "mode").
Qed.

Lemma keeps_mode_on_mqtt_message in_loop msg :
  keeps_mode (on_mqtt_message in_loop msg).
Proof.
  unfold on_mqtt_message. keeps_mode.
  apply keeps_mode_modify. intros self. cbn [system_status with_system_status].
  by apply keeps_mode_dict_update.
Qed.

Lemma keeps_mode_on_vision_detection in_loop now detections :
  keeps_mode (on_vision_detection in_loop now detections).
Proof. unfold on_vision_detection. keeps_mode. Qed.

(** Every operation but [set_mode] leaves the mode alone. *)
Lemma run_keeps_mode o self :
  writes_mode o = false →
  system_status (run o self) !! "mode" = system_status self !! "mode".
Proof.
  intros Ho. destruct o; try discriminate Ho; cbn [run]; unfold exec;
    lazymatch goal with
    | |- system_status (snd (?m self)) !! _ = _ =>
        revert self; change (keeps_mode m)
    end.
  - unfold initialize_mqtt. keeps_mode.
  - unfold on_mqtt_connect. keeps_mode.
  - apply keeps_mode_on_mqtt_message.
  - unfold on_mqtt_disconnect. keeps_mode.
  - unfold tracking_cycle. keeps_mode; apply keeps_mode_on_vision_detection.
  - unfold manual_servo_control. keeps_mode.
  - unfold manual_motor_control. keeps_mode.
  - unfold emergency_stop. keeps_mode.
  - unfold move_to_home. keeps_mode.
  - unfold websocket_handler_enter. keeps_mode.
  - unfold websocket_handler_exit. keeps_mode.
  - unfold peer_close. keeps_mode.
  - unfold broadcast_status. keeps_mode; apply keeps_mode_broadcast.
  - unfold broadcast_detections. keeps_mode; apply keeps_mode_broadcast.
  - unfold start_vision_tracking. keeps_mode.
  - unfold stop_vision_tracking. keeps_mode.
Qed.

Lemma py_in_strs_mode mode s :
  py_in_strs mode ["auto"; "manual"] = Some s ↔
  mode = PStr s ∧ (s = "auto" ∨ s = "manual").
Proof.
  destruct mode; cbn; try (split; [discriminate|intros [[=] _]]).
  case_bool_decide as Hin; rewrite !elem_of_cons, elem_of_nil in Hin.
  - split; [intros [= ->]; tauto | intros [[= ->] _]; reflexivity].
  - split; [discriminate | intros [[= ->] ?]; tauto].
Qed.

Lemma set_mode_applies s self :
  s = "auto" ∨ s = "manual" →
  system_status (exec (set_mode (PStr s)) self) !! "mode" = Some (PStr s).
Proof.
  intros Hs. unfold set_mode.
  rewrite (proj2 (py_in_strs_mode (PStr s) s)) by done.
  unfold exec, bind, status_setitem, modify, get. cbn.
  destruct (mqtt_client self); cbn; apply lookup_insert_eq.
Qed.

Lemma set_mode_ignores mode self :
  mode ≠ PStr "auto" → mode ≠ PStr "manual" →
  set_mode mode self = (Ok tt, self).
Proof.
  intros Ha Hm. unfold set_mode.
  destruct (py_in_strs mode ["auto"; "manual"]) as [s|] eqn:Hin; [|done].
  apply py_in_strs_mode in Hin as [-> [->| ->]]; congruence.
Qed.

(** C9: the mode is ['auto'] or ['manual'] in every reachable state.  It
    starts as ['auto']; [set_mode] stores ['auto'] or ['manual'] when
    given one of them and otherwise changes nothing and publishes
    nothing; no other operation changes the mode field. *)
Theorem mode_auto_or_manual :
  system_status init !! "mode" = Some (PStr "auto") ∧
  (∀ s self, s = "auto" ∨ s = "manual" →
     system_status (exec (set_mode (PStr s)) self) !! "mode" = Some (PStr s)) ∧
  (∀ mode self, mode ≠ PStr "auto" → mode ≠ PStr "manual" →
     set_mode mode self = (Ok tt, self)) ∧
  (∀ o self, writes_mode o = false →
     system_status (run o self) !! "mode" = system_status self !! "mode") ∧
  (∀ self, reachable self →
     system_status self !! "mode" = Some (PStr "auto") ∨
     system_status self !! "mode" = Some (PStr "manual")).
Proof.
  split; [reflexivity|].
  split; [apply set_mode_applies|].
  split; [apply set_mode_ignores|].
  split; [apply run_keeps_mode|].
  induction 1 as [|o self Hreach IH]; [by left|].
  destruct (writes_mode o) eqn:Ho; [|by rewrite run_keeps_mode].
  destruct o; try discriminate Ho. cbn [run].
  destruct (py_in_strs mode ["auto"; "manual"]) as [s|] eqn:Hin.
  - apply py_in_strs_mode in Hin as [-> Hs].
    rewrite set_mode_applies by done. destruct Hs as [->| ->]; tauto.
  - unfold exec, set_mode. by rewrite Hin.
Qed.


End ModeInvariant.

(** The invariant at a state reached by switching to manual mode, and
    [set_mode] refusing the value ['AUTO']. *)
Lemma mode_auto_or_manual_witness :
  (SmartArmBackend.system_status Examples.manual_backend !! "mode" = Some (PStr "auto") ∨
   SmartArmBackend.system_status Examples.manual_backend !! "mode" = Some (PStr "manual")) ∧
  SmartArmBackend.set_mode (PStr "AUTO") Examples.manual_backend
    = (Ok tt, Examples.manual_backend).
Proof.
  destruct (mode_auto_or_manual (L := Float64.libm_rounded)) as (_ & _ & Hignore & _ & Hinv). split.
  - apply Hinv. unfold Examples.manual_backend.
    apply (SmartArmBackend.reachable_run (SmartArmBackend.OpSetMode (PStr "manual"))).
    unfold Examples.auto_backend.
    apply (SmartArmBackend.reachable_run (SmartArmBackend.OpInitializeMqtt true)).
    apply SmartArmBackend.reachable_init.
  - apply Hignore; discriminate.
Defined.

(** ** The broadcast fan-out *)

Section Broadcast.
Import SmartArmBackend.

Lemma send_closed client message self :
  closed (sockets self client) = true →
  send client message self = (Raise ConnectionClosed, self).
Proof. intros Hc. unfold send, bind, get. by rewrite Hc. Qed.

Lemma send_open client message self :
  closed (sockets self client) = false →
  send client message self =
  (Ok tt,
   with_sockets
     (<[client := {| closed := false;
                     received := received (sockets self client) ++ [message] |}]>
        (sockets self)) self).
Proof. intros Hc. unfold send, bind, get. by rewrite Hc. Qed.

(** The loop of a broadcast round: it never raises, it notes exactly
    the closed connections, every open connection of the list gets the
    message once, and nothing else changes. *)
Lemma send_all_spec message clients :
  NoDup clients →
  ∀ disconnected self,
  ∃ disconnected' self',
    send_all message clients disconnected self = (Ok disconnected', self') ∧
    (∀ c, c ∈ disconnected' ↔
          c ∈ disconnected ∨ (c ∈ clients ∧ closed (sockets self c) = true)) ∧
    websocket_clients self' = websocket_clients self ∧
    (∀ c, closed (sockets self' c) = closed (sockets self c)) ∧
    (∀ c, received (sockets self' c) =
          if decide (c ∈ clients ∧ closed (sockets self c) = false)
          then received (sockets self c) ++ [message]
          else received (sockets self c)).
Proof.
  induction 1 as [|client rest Hnotin Hnodup IH]; intros disconnected self.
  - exists disconnected, self. cbn. split_and!; try done.
    intros c. rewrite elem_of_nil. tauto.
  - cbn [send_all]. unfold bind at 1, try_except, bind at 1.
    destruct (closed (sockets self client)) eqn:Hclosed.
    + rewrite send_closed by done. cbn.
      destruct (IH ({[client]} ∪ disconnected) self)
        as (D' & self' & -> & HD & Hws & Hcl & Hrecv).
      exists D', self'. split_and!; try done.
      * intros c. rewrite HD, elem_of_union, elem_of_singleton, elem_of_cons.
        split.
        -- intros [[->|?]|[? ?]]; [right; split; [by left|done] | by left
                                  | right; split; [by right|done]].
        -- intros [?|[[->|?] ?]]; [left; by right | left; by left | by right].
      * intros c. rewrite Hrecv. apply decide_ext. rewrite elem_of_cons.
        split; [intros [? ?]; split; [by right|done]|].
        intros [[->|?] ?]; [congruence|done].
    + rewrite send_open by done. cbn.
      match goal with |- context [send_all _ _ _ ?s] => set (self1 := s) end.
      assert (Hcl1 : ∀ c, closed (sockets self1 c) = closed (sockets self c)).
      { intros c. subst self1. cbn. destruct (decide (client = c)) as [->|Hne].
        - by rewrite fn_lookup_insert.
        - by rewrite fn_lookup_insert_ne. }
      destruct (IH disconnected self1)
        as (D' & self' & -> & HD & Hws & Hcl & Hrecv).
      exists D', self'. split_and!; try done.
      * intros c. rewrite HD, Hcl1, elem_of_cons. split.
        -- intros [?|[? ?]]; [by left | right; split; [by right|done]].
        -- intros [?|[[->|?] ?]]; [by left | congruence | by right].
      * intros c. by rewrite Hcl, Hcl1.
      * intros c. rewrite Hrecv, Hcl1. subst self1. cbn.
        destruct (decide (client = c)) as [->|Hne].
        -- rewrite fn_lookup_insert. cbn.
           rewrite decide_False by (intros [? _]; done).
           rewrite decide_True; [done|]. split; [by left|done].
        -- rewrite fn_lookup_insert_ne by done.
           apply decide_ext. rewrite elem_of_cons.
           split; [intros [? ?]; split; [by right|done]|].
           intros [[->|?] ?]; [done|done].
Qed.





End Broadcast.

(** ** The closest-object scan *)

Section FloatOrder.
Import Float64.

Ltac cmp_cases :=
  repeat match goal with
    | |- context [Z.compare ?x ?y] => destruct (Z.compare_spec x y); subst
    | |- context [Pos.compare_cont Eq ?x ?y] =>
        change (Pos.compare_cont Eq x y) with (Pos.compare x y);
        destruct (Pos.compare_spec x y); subst
    end.

(** [<] on floats is transitive. *)
Lemma ltb_trans a b c : ltb a b = true → ltb b c = true → ltb a c = true.
Proof.
  unfold ltb, SFltb.
  destruct a as [[]|[]| |[] ma ea], b as [[]|[]| |[] mb eb],
           c as [[]|[]| |[] mc ec];
    cbn; try done; cmp_cases; cbn; try done; lia.
Qed.


(** [a < b] excludes [b < a]. *)
Lemma ltb_asym a b : ltb a b = true → ltb b a = false.
Proof.
  unfold ltb, SFltb.
  destruct a as [[]|[]| |[] ma ea], b as [[]|[]| |[] mb eb];
    cbn; try done; cmp_cases; cbn; try done; lia.
Qed.

Lemma ltb_irrefl x : ltb x x = false.
Proof.
  destruct (ltb x x) eqn:H; [|done]. by rewrite (ltb_asym _ _ H) in H.
Qed.

End FloatOrder.

Section Closest.
Import Float64 VisionTracker Examples.

Context {L : Float64.Libm}.







(** C7: with no detections [find_closest_object] returns [None],
    whatever the target. *)
Theorem find_closest_object_empty (self : VisionTracker.t)
    (target_position : option (float * float)) :
  detections self = [] →
  find_closest_object self target_position = Ok None.
Proof.
  intros Hnil. unfold find_closest_object, get_detections. by rewrite Hnil.
Qed.

End Closest.

Section ClosestExamples.
Import Float64 VisionTracker Examples.



Lemma find_closest_object_empty_witness :
  find_closest_object (L := libm_rounded) (tracker_of [])
    (Some (f0_1, f0_9)) = Ok None.
Proof.
  apply (find_closest_object_empty (tracker_of []) (Some (f0_1, f0_9))).
  reflexivity.
Defined.

End ClosestExamples.


(** * Further properties *)

(** ** Properties kept by every operation *)

Section Preservation.
Import SmartArmBackend Vocabulary.

Lemma preserves_ret {A} I (a : A) : preserves I (ret a).
Proof. by intros self. Qed.

Lemma preserves_raise {A} I e : preserves I (@raise A e).
Proof. by intros self. Qed.

Lemma preserves_lift {A} I (r : pyres A) : preserves I (lift r).
Proof. by intros self. Qed.

Lemma preserves_get I : preserves I get.
Proof. by intros self. Qed.

Lemma preserves_modify I (f : SmartArmBackend.t → SmartArmBackend.t) :
  (∀ self, I self → I (f self)) → preserves I (modify f).
Proof. intros Hf self. apply Hf. Qed.

Lemma preserves_bind {A B} I (m : M A) (k : A → M B) :
  preserves I m → (∀ a, preserves I (k a)) → preserves I (bind m k).
Proof.
  intros Hm Hk self HI. unfold bind. specialize (Hm self HI).
  destruct (m self) as [[a|e] self1]; cbn in *; [|done].
  by apply Hk.
Qed.

Lemma preserves_try_except {A} I (m : M A) (h : exn → option (M A)) :
  preserves I m → (∀ e handler, h e = Some handler → preserves I handler) →
  preserves I (try_except m h).
Proof.
  intros Hm Hh self HI. unfold try_except. specialize (Hm self HI).
  destruct (m self) as [[a|e] self1]; cbn in *; [done|].
  destruct (h e) as [handler|] eqn:He; [|done].
  by apply (Hh _ _ He).
Qed.

End Preservation.

(** The structure of a method is walked through; [tac] settles what a
    field assignment does to the property. *)
Ltac preserves_step tac :=
  lazymatch goal with
  | |- Vocabulary.preserves _ (SmartArmBackend.ret _) => apply preserves_ret
  | |- Vocabulary.preserves _ (SmartArmBackend.raise _) => apply preserves_raise
  | |- Vocabulary.preserves _ (SmartArmBackend.lift _) => apply preserves_lift
  | |- Vocabulary.preserves _ SmartArmBackend.get => apply preserves_get
  | |- Vocabulary.preserves _ (SmartArmBackend.modify _) =>
      apply preserves_modify; tac
  | |- Vocabulary.preserves _ (SmartArmBackend.bind _ _) =>
      apply preserves_bind; [|intros ?]
  | |- Vocabulary.preserves _ (SmartArmBackend.try_except _ _) =>
      apply preserves_try_except;
      [|let e := fresh "e" in let He := fresh "He" in
        intros e ? He; destruct e; simplify_eq He; intros <-]
  | |- Vocabulary.preserves _ (let _ := _ in _) => cbn zeta
  | |- Vocabulary.preserves _ (match ?x with _ => _ end) => destruct x
  | |- Vocabulary.preserves _ (SmartArmBackend.status_setitem _ _) =>
      unfold SmartArmBackend.status_setitem
  | |- Vocabulary.preserves _ (SmartArmBackend.status_getitem _) =>
      unfold SmartArmBackend.status_getitem
  | |- Vocabulary.preserves _ (SmartArmBackend.publish _ _ _) =>
      unfold SmartArmBackend.publish
  | |- Vocabulary.preserves _ (SmartArmBackend.subscribe _ _) =>
      unfold SmartArmBackend.subscribe
  | |- Vocabulary.preserves _ (SmartArmBackend.create_task _ _) =>
      unfold SmartArmBackend.create_task
  | |- Vocabulary.preserves _ (SmartArmBackend.log_operation _ _ _) =>
      unfold SmartArmBackend.log_operation
  | |- Vocabulary.preserves _ (SmartArmBackend.send _ _) =>
      unfold SmartArmBackend.send
  end.

Ltac preserves_with tac := repeat preserves_step tac.

Ltac in_strings :=
  rewrite !elem_of_cons; repeat first [left; reflexivity | right].

(** A property that does not look at the connections survives a
    broadcast round, whatever the event loop runs during its sends and
    whether the round completes or raises. *)
Section ConnectionBlind.
Import SmartArmBackend Vocabulary.

Variable I : SmartArmBackend.t → Prop.
Hypothesis I_blind : connection_blind I.

Ltac blind_assign :=
  let self := fresh "self" in let H := fresh "H" in
  intros self H;
  first [apply (proj1 I_blind), H | apply (proj2 I_blind), H].

Ltac blind := preserves_with blind_assign.

Lemma preserves_send client message : preserves I (send client message).
Proof. blind. Qed.

Lemma preserves_send_all message clients disconnected :
  preserves I (send_all message clients disconnected).
Proof.
  revert disconnected.
  induction clients as [|client rest IH]; intros disconnected; cbn [send_all].
  - apply preserves_ret.
  - apply preserves_bind; [|intros failed; apply IH]. blind.
Qed.

Lemma preserves_run_other o : preserves I (run_other o).
Proof.
  destruct o; cbn [run_other]; unfold websocket_handler_exit, peer_close;
    blind.
Qed.

Lemma preserves_others steps : preserves I (others steps).
Proof.
  induction steps as [|o steps IH]; cbn [others]; [apply preserves_ret|].
  apply preserves_bind; [apply preserves_get|intros self].
  apply preserves_bind; [apply preserves_run_other|intros ?].
  apply preserves_bind; [apply preserves_get|intros self'].
  apply preserves_bind; [apply IH|intros ?]. apply preserves_ret.
Qed.

Lemma preserves_send_turns message used schedule clients disconnected :
  preserves I (send_turns message used schedule clients disconnected).
Proof.
  revert clients disconnected.
  induction schedule as [|turn schedule IH]; intros clients disconnected;
    cbn [send_turns]; [apply preserves_send_all|].
  destruct clients as [|client rest]; [apply preserves_ret|].
  apply preserves_bind; [apply preserves_others|intros changed_before].
  apply preserves_bind; [blind|intros failed].
  apply preserves_bind; [apply preserves_others|intros changed_after].
  apply preserves_bind; [apply preserves_get|intros self].
  case_bool_decide; [apply preserves_raise|apply IH].
Qed.

Lemma preserves_broadcast message schedule :
  preserves I (broadcast message schedule).
Proof.
  unfold broadcast.
  apply preserves_bind; [apply preserves_get|intros self].
  apply preserves_bind; [apply preserves_send_turns|intros ?]. blind.
Qed.

End ConnectionBlind.

Section Schema.
Import SmartArmBackend Vocabulary Examples.

Context {L : Float64.Libm}.

Lemma schema_keys_has k : k ∈ schema_fields → k ∈ schema_keys.
Proof. intros Hk. by apply elem_of_list_to_set. Qed.

Lemma dom_insert_schema (st : gmap string pyval) k v :
  k ∈ schema_fields → dom st = schema_keys → dom (<[k:=v]> st) = schema_keys.
Proof.
  intros Hk Hdom. rewrite dom_insert_L, Hdom.
  apply subseteq_union_1_L, singleton_subseteq_l, schema_keys_has, Hk.
Qed.

Lemma dom_dict_update_schema (st : gmap string pyval) a b c :
  dom st = schema_keys →
  dom (dict_update st {[ "servo_angles" := a; "distance_cm" := b;
                         "motor_speed" := c ]}) = schema_keys.
Proof.
  intros Hdom. unfold dict_update.
  rewrite dom_union_L, !dom_insert_L, dom_singleton_L, Hdom.
  apply subseteq_union_1_L.
  repeat apply union_least;
    apply singleton_subseteq_l, schema_keys_has; unfold schema_fields;
    rewrite !elem_of_cons; repeat first [left; reflexivity | right].
Qed.

Ltac keyed_assign :=
  let self := fresh "self" in let H := fresh "H" in
  intros self H; unfold well_keyed in *;
  cbn [system_status with_vision_tracker with_data_logger with_mqtt_client
       with_websocket_clients with_system_status with_sockets with_tasks];
  first [ exact H
        | apply dom_insert_schema; [unfold schema_fields; in_strings | exact H]
        | apply dom_dict_update_schema; exact H ].

Ltac keyed := preserves_with keyed_assign.

Lemma well_keyed_broadcast message schedule :
  preserves well_keyed (broadcast message schedule).
Proof. apply preserves_broadcast. split; intros self ? H; exact H. Qed.

Lemma well_keyed_on_vision_detection in_loop now detections :
  preserves well_keyed (on_vision_detection in_loop now detections).
Proof. unfold on_vision_detection. keyed. Qed.

Lemma run_well_keyed o self : well_keyed self → well_keyed (run o self).
Proof.
  destruct o; cbn [run]; unfold exec;
    lazymatch goal with
    | |- well_keyed self → well_keyed (snd (?m self)) =>
        revert self; change (preserves well_keyed m)
    end.
  - unfold initialize_mqtt. keyed.
  - unfold on_mqtt_connect. keyed.
  - unfold on_mqtt_message. keyed.
  - unfold on_mqtt_disconnect. keyed.
  - unfold tracking_cycle. keyed; apply well_keyed_on_vision_detection.
  - unfold set_mode. keyed.
  - unfold manual_servo_control. keyed.
  - unfold manual_motor_control. keyed.
  - unfold emergency_stop. keyed.
  - unfold move_to_home. keyed.
  - unfold websocket_handler_enter. keyed.
  - unfold websocket_handler_exit. keyed.
  - unfold peer_close. keyed.
  - unfold broadcast_status. keyed; apply well_keyed_broadcast.
  - unfold broadcast_detections. keyed; apply well_keyed_broadcast.
  - unfold start_vision_tracking. keyed.
  - unfold stop_vision_tracking. keyed.
Qed.

Lemma reachable_well_keyed self : reachable self → well_keyed self.
Proof.
  induction 1 as [|o self Hreach IH].
  - unfold well_keyed, schema_keys.
    apply set_eq. intros k. unfold init, initial_status. cbn [system_status].
    rewrite !dom_insert_L, dom_singleton_L, elem_of_list_to_set.
    unfold schema_fields.
    rewrite !elem_of_union, !elem_of_singleton, !elem_of_cons, elem_of_nil.
    tauto.
  - by apply run_well_keyed.
Qed.

(** X1: the status dictionary keeps exactly the nine keys it is built
    with: no operation of the backend adds a key or removes one. *)
Theorem reachable_status_keys (self : SmartArmBackend.t) :
  reachable self →
  dom (system_status self) = list_to_set schema_fields.
Proof. apply reachable_well_keyed. Qed.

Lemma reachable_manual_backend : reachable manual_backend.
Proof.
  unfold manual_backend, auto_backend.
  apply (reachable_run (OpSetMode (PStr "manual"))).
  apply (reachable_run (OpInitializeMqtt true)).
  apply reachable_init.
Qed.

(** X2: in a reachable state the two manual commands never raise (the
    mode key is always there); both give the same answer, which is
    [True] exactly when the mode is ['manual'] and a broker client
    exists. *)
Theorem manual_commands_never_raise (self : SmartArmBackend.t)
    (servo_id angle speed : Z) :
  reachable self →
  ∃ b : bool,
    fst (manual_servo_control servo_id angle self) = Ok b ∧
    fst (manual_motor_control speed self) = Ok b ∧
    (b = true ↔ system_status self !! "mode" = Some (PStr "manual") ∧
                is_Some (mqtt_client self)).
Proof.
  intros Hkeys%reachable_well_keyed.
  assert (is_Some (system_status self !! "mode")) as [m Hm].
  { apply elem_of_dom. rewrite Hkeys. apply schema_keys_has.
    unfold schema_fields. in_strings. }
  unfold manual_servo_control, manual_motor_control, status_getitem, bind,
    get, lift, py_getitem. rewrite Hm.
  destruct (py_ne_str m "manual") eqn:Hne.
  - exists false. split_and!; [done..|]. apply py_ne_str_true in Hne.
    split; [done|]. intros [[= ->] _]. done.
  - apply py_ne_str_false in Hne as ->.
    destruct (mqtt_client self) as [client|] eqn:Hc; cbn.
    + exists true. split_and!; [done..|]. split; [|done]. eauto.
    + exists false. split_and!; [done..|]. split; [done|].
      intros [_ [? [=]]].
Qed.

End Schema.

Section SchemaExamples.
Import SmartArmBackend Vocabulary Examples.

Lemma reachable_status_keys_witness :
  dom (system_status manual_backend) = list_to_set schema_fields.
Proof.
  apply (reachable_status_keys (L := Float64.libm_rounded)).
  apply reachable_manual_backend.
Defined.

Lemma manual_commands_never_raise_witness :
  ∃ b : bool,
    fst (manual_servo_control 2 45 manual_backend) = Ok b ∧
    fst (manual_motor_control 3 manual_backend) = Ok b ∧
    (b = true ↔ system_status manual_backend !! "mode" = Some (PStr "manual") ∧
                is_Some (mqtt_client manual_backend)).
Proof.
  apply (manual_commands_never_raise (L := Float64.libm_rounded)
           manual_backend 2 45 3).
  apply reachable_manual_backend.
Defined.

End SchemaExamples.

(** ** What reaches the broker *)

Section Publishing.
Import SmartArmBackend Vocabulary Examples.

Context {L : Float64.Libm}.

Ltac client_assign :=
  let self := fresh "self" in let H := fresh "H" in
  intros self H;
  cbn [mqtt_client with_vision_tracker with_data_logger
       with_websocket_clients with_system_status with_sockets with_tasks];
  exact H.

Ltac client_kept := preserves_with client_assign.

Lemma client_kept_broadcast C message schedule :
  preserves (λ s, mqtt_client s = C) (broadcast message schedule).
Proof. apply preserves_broadcast. split; intros self ? H; exact H. Qed.

Lemma client_kept_on_vision_detection C in_loop now detections :
  preserves (λ s, mqtt_client s = C)
    (on_vision_detection in_loop now detections).
Proof. unfold on_vision_detection. client_kept. Qed.

(** The operations that do not use the client leave it alone. *)
Lemma run_client_kept o self :
  uses_client o = false → mqtt_client (run o self) = mqtt_client self.
Proof.
  intros Ho.
  enough (preserves (λ s, mqtt_client s = mqtt_client self)
            (λ s, (Ok tt, run o s))) as H by exact (H self eq_refl).
  destruct o; try discriminate Ho; cbn [run]; unfold exec;
    intros s Hs; cbn [snd];
    lazymatch goal with
    | |- mqtt_client (snd (?m s)) = ?C =>
        revert s Hs; change (preserves (λ s, mqtt_client s = C) m)
    end.
  - unfold on_mqtt_message. client_kept.
  - unfold on_mqtt_disconnect. client_kept.
  - unfold tracking_cycle. client_kept; apply client_kept_on_vision_detection.
  - unfold websocket_handler_enter. client_kept.
  - unfold websocket_handler_exit. client_kept.
  - unfold peer_close. client_kept.
  - unfold broadcast_status. client_kept; apply client_kept_broadcast.
  - unfold broadcast_detections. client_kept; apply client_kept_broadcast.
  - unfold start_vision_tracking. client_kept.
  - unfold stop_vision_tracking. client_kept.
Qed.

Ltac use_client :=
  cbn;
  repeat match goal with
    | H : mqtt_client ?s = _ |- context [mqtt_client ?s] => rewrite H; cbn
    end.

Ltac none_added :=
  exists []; use_client; rewrite ?app_nil_r;
  split_and!; try done; by constructor.

(** What one operation adds to the published commands. *)
Lemma run_published o self :
  (∀ ok, o ≠ OpInitializeMqtt ok) →
  ∃ l,
    published_of (run o self) = published_of self ++ l ∧
    (length l ≤ 1)%nat ∧
    Forall (λ e, e.1 = CONTROL_TOPIC) l ∧
    (mqtt_client self = None → l = [] ∧ mqtt_client (run o self) = None) ∧
    (system_status self !! "mode" ≠ Some (PStr "manual") →
     Forall (λ e, e.2 ∈ mode_free_commands) l).
Proof.
  intros Hinit.
  destruct (uses_client o) eqn:Ho.
  2:{ exists []. unfold published_of. rewrite run_client_kept by done.
      rewrite app_nil_r. split_and!; try done; by constructor. }
  destruct o; try discriminate Ho; cbn [run]; unfold exec, published_of.
  - by destruct (Hinit connect_ok).
  - unfold on_mqtt_connect, status_setitem, subscribe, bind, modify, get, ret.
    case_bool_decide; destruct (mqtt_client self) as [client|] eqn:Hc;
      none_added.
  - unfold set_mode.
    destruct (py_in_strs mode ["auto"; "manual"]) as [s|] eqn:Hin;
      [|none_added].
    apply py_in_strs_mode in Hin as [-> Hs].
    unfold status_setitem, publish, bind, modify, get, ret.
    destruct (mqtt_client self) as [client|] eqn:Hc; [|none_added].
    eexists [_]. use_client.
    split_and!; [done|done|by repeat constructor|done|].
    intros _. apply Forall_singleton. cbn [snd].
    destruct Hs as [->| ->]; unfold mode_free_commands; cbn; in_strings.
  - unfold manual_servo_control, status_getitem, publish, bind, get, lift,
      modify, ret, py_getitem.
    destruct (system_status self !! "mode") as [m|] eqn:Hm; [|none_added].
    destruct (py_ne_str m "manual") eqn:Hne; [none_added|].
    apply py_ne_str_false in Hne as ->.
    destruct (mqtt_client self) as [client|] eqn:Hc; [|none_added].
    eexists [_]. use_client.
    split_and!; [done|done|by repeat constructor|done|done].
  - unfold manual_motor_control, status_getitem, publish, bind, get, lift,
      modify, ret, py_getitem.
    destruct (system_status self !! "mode") as [m|] eqn:Hm; [|none_added].
    destruct (py_ne_str m "manual") eqn:Hne; [none_added|].
    apply py_ne_str_false in Hne as ->.
    destruct (mqtt_client self) as [client|] eqn:Hc; [|none_added].
    eexists [_]. use_client.
    split_and!; [done|done|by repeat constructor|done|done].
  - unfold emergency_stop, publish, bind, get, modify, ret.
    destruct (mqtt_client self) as [client|] eqn:Hc; [|none_added].
    eexists [_]. use_client.
    split_and!; [done|done|by repeat constructor|done|].
    intros _. apply Forall_singleton. cbn [snd].
    unfold mode_free_commands. in_strings.
  - unfold move_to_home, publish, bind, get, modify, ret.
    destruct (mqtt_client self) as [client|] eqn:Hc; [|none_added].
    eexists [_]. use_client.
    split_and!; [done|done|by repeat constructor|done|].
    intros _. apply Forall_singleton. cbn [snd].
    unfold mode_free_commands. in_strings.
Qed.

(** X3: apart from creating the client, an operation never rewrites what
    was published: it appends at most one command, always on the control
    topic, and without a client nothing is published and none appears. *)
Theorem run_appends_commands (o : op) (self : SmartArmBackend.t) :
  (∀ ok, o ≠ OpInitializeMqtt ok) →
  ∃ l,
    published_of (run o self) = published_of self ++ l ∧
    (length l ≤ 1)%nat ∧
    Forall (λ e, e.1 = CONTROL_TOPIC) l ∧
    (mqtt_client self = None → l = [] ∧ mqtt_client (run o self) = None).
Proof.
  intros Hinit.
  destruct (run_published o self Hinit) as (l & H1 & H2 & H3 & H4 & _).
  by exists l.
Qed.

(** X4: while the mode is not ['manual'] no operation publishes a servo
    or motor command: whatever one operation adds to the published
    commands is [MODE AUTO], [MODE MANUAL], [STOP] or [HOME]. *)
Theorem run_outside_manual (o : op) (self : SmartArmBackend.t) :
  (∀ ok, o ≠ OpInitializeMqtt ok) →
  system_status self !! "mode" ≠ Some (PStr "manual") →
  ∃ l,
    published_of (run o self) = published_of self ++ l ∧
    Forall (λ e, e.2 ∈ mode_free_commands) l.
Proof.
  intros Hinit Hmode.
  destruct (run_published o self Hinit) as (l & H1 & _ & _ & _ & H5).
  exists l. split; [done|]. by apply H5.
Qed.

(** X5: [manual_motor_control] is refused outside manual mode: it returns
    [False] and leaves the backend as it was.  In manual mode with a
    broker client it publishes [MOTOR <speed>] on the control topic and
    returns [True]; in manual mode without a client it returns [False]
    and changes nothing. *)
Theorem manual_motor_control_gated (self : SmartArmBackend.t) (speed : Z)
    (mode : pyval) :
  system_status self !! "mode" = Some mode →
  (mode ≠ PStr "manual" →
     manual_motor_control speed self = (Ok false, self)) ∧
  (mode = PStr "manual" → ∀ client, mqtt_client self = Some client →
     manual_motor_control speed self =
     (Ok true,
      with_mqtt_client
        (Some (client_publish client CONTROL_TOPIC ("MOTOR " +:+ pretty speed)))
        self)) ∧
  (mode = PStr "manual" → mqtt_client self = None →
     manual_motor_control speed self = (Ok false, self)).
Proof.
  intros Hmode. split_and!.
  - intros Hne%py_ne_str_true.
    unfold manual_motor_control, status_getitem, bind, get, lift, py_getitem.
    by rewrite Hmode, Hne.
  - intros Heq%py_ne_str_false client Hclient.
    unfold manual_motor_control, status_getitem, bind, get, lift, py_getitem.
    by rewrite Hmode, Heq, Hclient.
  - intros Heq%py_ne_str_false Hclient.
    unfold manual_motor_control, status_getitem, bind, get, lift, py_getitem.
    by rewrite Hmode, Heq, Hclient.
Qed.

Lemma manual_motor_control_gated_witness :
  manual_motor_control (-3) auto_backend = (Ok false, auto_backend) ∧
  fst (manual_motor_control (-3) manual_backend) = Ok true ∧
  published_of (exec (manual_motor_control (-3)) manual_backend) =
    [(CONTROL_TOPIC, "MODE MANUAL"); (CONTROL_TOPIC, "MOTOR -3")].
Proof.
  split.
  - apply (proj1 (manual_motor_control_gated auto_backend (-3) (PStr "auto")
                    eq_refl)).
    discriminate.
  - unfold exec.
    rewrite (proj1 (proj2 (manual_motor_control_gated manual_backend (-3)
                             (PStr "manual") eq_refl))
               eq_refl {| subscriptions := [];
                          published := [(CONTROL_TOPIC, "MODE MANUAL")] |}
               eq_refl).
    split; reflexivity.
Defined.

(** [set_mode] given one of the two modes, with a client. *)
Lemma set_mode_accepted s self client :
  s = "auto" ∨ s = "manual" →
  mqtt_client self = Some client →
  set_mode (PStr s) self =
  (Ok tt,
   with_mqtt_client
     (Some (client_publish client CONTROL_TOPIC ("MODE " +:+ upper s)))
     (with_system_status (<["mode":=PStr s]> (system_status self)) self)).
Proof.
  intros Hs Hc. unfold set_mode.
  rewrite (proj2 (py_in_strs_mode (PStr s) s)) by done.
  unfold status_setitem, publish, bind, modify, get. cbn. by rewrite Hc.
Qed.

(** [manual_servo_control] by the mode it finds. *)
Lemma manual_servo_control_cases servo_id angle self mode :
  system_status self !! "mode" = Some mode →
  manual_servo_control servo_id angle self =
  if py_ne_str mode "manual" then (Ok false, self)
  else match mqtt_client self with
       | Some client =>
           (Ok true,
            with_mqtt_client
              (Some (client_publish client CONTROL_TOPIC
                       (servo_command servo_id angle))) self)
       | None => (Ok false, self)
       end.
Proof.
  intros Hmode.
  unfold manual_servo_control, status_getitem, bind, get, lift, py_getitem.
  rewrite Hmode. cbn. destruct (py_ne_str mode "manual"); [done|].
  by destruct (mqtt_client self).
Qed.

(** X6: [set_mode] followed by a manual command, with a broker client:
    after [set_mode('manual')] the servo request is accepted and the
    control topic has seen [MODE MANUAL] and then the servo command;
    after [set_mode('auto')] it is refused and only [MODE AUTO] was
    published. *)
Theorem set_mode_then_servo (self : SmartArmBackend.t)
    (client : mqtt_client_t) (servo_id angle : Z) :
  mqtt_client self = Some client →
  let manual := exec (set_mode (PStr "manual")) self in
  let auto := exec (set_mode (PStr "auto")) self in
  fst (manual_servo_control servo_id angle manual) = Ok true ∧
  published_of (exec (manual_servo_control servo_id angle) manual) =
    published client ++ [(CONTROL_TOPIC, "MODE MANUAL");
                         (CONTROL_TOPIC, servo_command servo_id angle)] ∧
  fst (manual_servo_control servo_id angle auto) = Ok false ∧
  published_of (exec (manual_servo_control servo_id angle) auto) =
    published client ++ [(CONTROL_TOPIC, "MODE AUTO")].
Proof.
  intros Hc. cbn zeta. unfold exec.
  rewrite !(set_mode_accepted _ self client) by auto. cbn [snd].
  rewrite (manual_servo_control_cases _ _ _ (PStr "manual"))
    by apply lookup_insert_eq.
  rewrite (manual_servo_control_cases _ _ _ (PStr "auto"))
    by apply lookup_insert_eq.
  change (py_ne_str (PStr "manual") "manual") with false.
  change (py_ne_str (PStr "auto") "manual") with true.
  change (upper "manual") with "MANUAL". change (upper "auto") with "AUTO".
  unfold published_of, client_publish. cbn.
  by rewrite <- !app_assoc.
Qed.

Lemma set_mode_then_servo_witness :
  let manual := exec (set_mode (PStr "manual")) auto_backend in
  let auto := exec (set_mode (PStr "auto")) auto_backend in
  fst (manual_servo_control 2 45 manual) = Ok true ∧
  published_of (exec (manual_servo_control 2 45) manual) =
    [] ++ [(CONTROL_TOPIC, "MODE MANUAL");
           (CONTROL_TOPIC, servo_command 2 45)] ∧
  fst (manual_servo_control 2 45 auto) = Ok false ∧
  published_of (exec (manual_servo_control 2 45) auto) =
    [] ++ [(CONTROL_TOPIC, "MODE AUTO")].
Proof.
  apply (set_mode_then_servo auto_backend
           {| subscriptions := []; published := [] |} 2 45).
  reflexivity.
Defined.

(** X7: the connection callbacks.  [on_mqtt_connect] records whether
    the connection succeeded ([rc == 0]) in [mqtt_connected] and touches
    no other status field; on success the client gains one subscription
    to the status topic, on failure none; nothing is published.
    [on_mqtt_disconnect] sets the flag to [False]. *)
Theorem on_mqtt_connect_flag (rc : Z) (self : SmartArmBackend.t) :
  let self' := exec (on_mqtt_connect rc) self in
  fst (on_mqtt_connect rc self) = Ok tt ∧
  system_status self' =
    <["mqtt_connected" := PBool (bool_decide (rc = 0))]> (system_status self) ∧
  subscriptions <$> mqtt_client self' =
    (λ c, subscriptions c ++ (if bool_decide (rc = 0) then [STATUS_TOPIC] else []))
      <$> mqtt_client self ∧
  published_of self' = published_of self ∧
  system_status (exec on_mqtt_disconnect self') =
    <["mqtt_connected" := PBool false]> (system_status self).
Proof.
  cbn zeta.
  unfold exec, on_mqtt_connect, on_mqtt_disconnect, status_setitem, subscribe,
    bind, modify, get, ret, published_of.
  case_bool_decide; destruct (mqtt_client self) as [client|] eqn:Hc; cbn;
    rewrite ?Hc; cbn; rewrite ?app_nil_r, ?insert_insert_eq;
    split_and!; try done; by rewrite Hc.
Qed.

End Publishing.

Section PublishingExamples.
Import SmartArmBackend Vocabulary Examples.

Lemma run_appends_commands_witness :
  ∃ l,
    published_of (run (L := Float64.libm_rounded) (OpManualServo 2 45)
                    manual_backend)
      = published_of manual_backend ++ l ∧
    (length l ≤ 1)%nat ∧
    Forall (λ e, e.1 = CONTROL_TOPIC) l ∧
    (mqtt_client manual_backend = None →
     l = [] ∧
     mqtt_client (run (L := Float64.libm_rounded) (OpManualServo 2 45)
                    manual_backend) = None).
Proof.
  apply (run_appends_commands (L := Float64.libm_rounded)
           (OpManualServo 2 45) manual_backend).
  discriminate.
Defined.

Lemma run_outside_manual_witness :
  ∃ l,
    published_of (run (L := Float64.libm_rounded) (OpManualServo 2 45)
                    auto_backend)
      = published_of auto_backend ++ l ∧
    Forall (λ e, e.2 ∈ mode_free_commands) l.
Proof.
  apply (run_outside_manual (L := Float64.libm_rounded)
           (OpManualServo 2 45) auto_backend);
    discriminate.
Defined.

End PublishingExamples.


(** ** More on the status handler *)

Section StatusHandlerMore.
Import Float64 SmartArmBackend Vocabulary Examples.

(** X8: what is not a status update is dropped: a message on another
    topic, a payload that does not decode, or a decoded payload that is
    not a JSON object leaves the whole backend as it was, and the
    handler returns normally. *)
Theorem on_mqtt_message_malformed (in_loop : bool) (msg : mqtt_message)
    (self : SmartArmBackend.t) :
  topic msg ≠ STATUS_TOPIC ∨
  (∃ e, payload msg = Raise e) ∨
  (∃ v, payload msg = Ok v ∧ ∀ d, v ≠ PDict d) →
  on_mqtt_message in_loop msg self = (Ok tt, self).
Proof.
  destruct msg as [tp pl]. cbn [topic payload].
  intros [Htp|[[e ->]|(v & -> & Hv)]].
  - rewrite on_mqtt_message_returns. by rewrite on_mqtt_message_other_topic.
  - done.
  - unfold on_mqtt_message, try_except, bind, lift. cbn.
    case_bool_decide; [|done].
    destruct v; try done. by destruct (Hv d).
Qed.

Lemma on_mqtt_message_malformed_witness :
  on_mqtt_message true
    {| topic := STATUS_TOPIC; payload := Ok example_servos |} manual_backend
  = (Ok tt, manual_backend).
Proof.
  apply (on_mqtt_message_malformed true
           {| topic := STATUS_TOPIC; payload := Ok example_servos |}).
  right. right. exists example_servos. split; [reflexivity|discriminate].
Defined.

(** X9: a status update is applied whether or not the broadcast can be
    scheduled: from a thread with a running event loop exactly one
    status broadcast is queued, from any other thread none, and the
    system status is the same in both cases; nothing but the status and
    the task queue changes. *)
Theorem on_mqtt_message_schedules (in_loop : bool) (p : gmap string pyval)
    (self : SmartArmBackend.t) :
  let self' := exec (on_mqtt_message in_loop (status_msg (PDict p))) self in
  tasks self' = tasks self ++ (if in_loop then [BroadcastStatus] else []) ∧
  system_status self' =
    system_status (exec (on_mqtt_message (negb in_loop)
                           (status_msg (PDict p))) self) ∧
  mqtt_client self' = mqtt_client self ∧
  websocket_clients self' = websocket_clients self ∧
  data_logger self' = data_logger self ∧
  vision_tracker self' = vision_tracker self.
Proof.
  cbn zeta. unfold exec. rewrite !on_mqtt_message_status_dict. cbn zeta.
  destruct in_loop; cbn; rewrite ?app_nil_r; done.
Qed.

(** X10: the three controller fields only ever reflect the last status
    message: applying a status update after another gives the same
    system status as applying it alone. *)
Theorem on_mqtt_message_last_wins (in_loop1 in_loop2 : bool)
    (p1 p2 : gmap string pyval) (self : SmartArmBackend.t) :
  system_status
    (exec (on_mqtt_message in_loop2 (status_msg (PDict p2)))
       (exec (on_mqtt_message in_loop1 (status_msg (PDict p1))) self)) =
  system_status (exec (on_mqtt_message in_loop2 (status_msg (PDict p2))) self).
Proof.
  apply map_eq. intros k. rewrite !status_after_message.
  by repeat case_decide.
Qed.

End StatusHandlerMore.

(** ** More on the broadcast fan-out *)

Section BroadcastMore.
Import SmartArmBackend Vocabulary Examples.

Lemma frame_broadcast self0 message schedule :
  preserves (same_but_connections self0) (broadcast message schedule).
Proof. apply preserves_broadcast. split; intros self ? H; exact H. Qed.

(** One round over the registered connections during which the
    coroutine is never suspended, in full. *)
Lemma broadcast_round message self :
  ∃ self', broadcast message [] self = (Ok tt, self') ∧
           round_outcome message self self'.
Proof.
  destruct (send_all_spec message (elements (websocket_clients self))
              (NoDup_elements _) ∅ self)
    as (D' & self' & Hsend & HD & Hws & Hcl & Hrecv).
  assert (Hb : broadcast message [] self =
               (Ok tt, with_websocket_clients
                         (websocket_clients self' ∖ D') self')).
  { unfold broadcast, bind at 1, get, bind. cbn [send_turns].
    by rewrite Hsend. }
  pose proof (frame_broadcast self message [] self) as Hframe.
  rewrite Hb in Hframe. cbn [snd] in Hframe.
  eexists. split; [exact Hb|]. unfold round_outcome. cbn. split_and!.
  - intros c. rewrite elem_of_difference, Hws, HD, elem_of_elements.
    rewrite elem_of_empty.
    destruct (closed (sockets self c)); intuition congruence.
  - intros c. rewrite Hrecv. apply decide_ext.
    by rewrite elem_of_elements.
  - done.
  - apply Hframe. by unfold same_but_connections.
Qed.

Lemma round_outcome_none message self :
  websocket_clients self = ∅ → round_outcome message self self.
Proof.
  intros Hempty. unfold round_outcome, same_but_connections.
  split_and!; try done.
  - intros c. rewrite Hempty, elem_of_empty. tauto.
  - intros c. rewrite decide_False; [done|].
    rewrite Hempty, elem_of_empty. tauto.
Qed.

Lemma broadcast_both (self : SmartArmBackend.t)
    (detections : list VisionTracker.detection) :
  (∃ self', broadcast_status [] self = (Ok tt, self') ∧
            round_outcome (status_message self) self self') ∧
  (∃ self', broadcast_detections [] detections self = (Ok tt, self') ∧
            round_outcome (detections_message detections) self self').
Proof.
  unfold broadcast_status, broadcast_detections, bind, get.
  case_bool_decide as Hne.
  - split; apply broadcast_round.
  - assert (websocket_clients self = ∅) as Hempty
      by (by destruct (decide (websocket_clients self = ∅))).
    split; exists self; (split; [done|by apply round_outcome_none]).
Qed.

(** What the others do never raises in the broadcast coroutine. *)
Lemma others_returns steps self :
  ∃ changed self', others steps self = (Ok changed, self').
Proof.
  revert self. induction steps as [|o steps IH]; intros self; cbn [others].
  - by exists false, self.
  - unfold bind at 1, get. unfold bind at 1.
    assert (∃ self1, run_other o self = (Ok tt, self1)) as [self1 ->].
    { destruct o as [ws|ws|ws msg|ws]; cbn [run_other];
        unfold websocket_handler_exit, peer_close, modify; eauto.
      unfold try_except, send, bind, get, raise, modify, ret.
      destruct (closed (sockets self ws)); eauto. }
    unfold bind at 1, get. unfold bind at 1.
    destruct (IH self1) as (changed & self' & ->). unfold ret. eauto.
Qed.

(** A send of the loop either goes out or is noted as failed. *)
Lemma send_caught client message self :
  ∃ failed self',
    try_except (send client message;! ret false)
      (λ e, match e with
            | ConnectionClosed => Some (ret true)
            | _ => None
            end) self = (Ok failed, self').
Proof.
  unfold try_except, send, bind, get, raise, modify, ret.
  destruct (closed (sockets self client)); eauto.
Qed.

Lemma send_all_returns message clients disconnected self :
  ∃ disconnected' self',
    send_all message clients disconnected self = (Ok disconnected', self').
Proof.
  revert disconnected self.
  induction clients as [|client rest IH]; intros disconnected self;
    cbn [send_all]; [by exists disconnected, self|].
  unfold bind at 1.
  destruct (send_caught client message self) as (failed & self1 & ->).
  apply IH.
Qed.

(** The loop over the live set ends normally or with [RuntimeError]. *)
Lemma send_turns_outcome message used schedule clients disconnected self :
  match fst (send_turns message used schedule clients disconnected self) with
  | Ok _ => True
  | Raise e => e = RuntimeError
  end.
Proof.
  revert clients disconnected self.
  induction schedule as [|turn schedule IH]; intros clients disconnected self;
    cbn [send_turns].
  { by destruct (send_all_returns message clients disconnected self)
      as (D & self' & ->). }
  destruct clients as [|client rest]; [done|].
  unfold bind at 1.
  destruct (others_returns (before turn) self) as (cb & self1 & ->).
  unfold bind at 1.
  destruct (send_caught client message self1) as (failed & self2 & ->).
  unfold bind at 1.
  destruct (others_returns (after turn) self2) as (ca & self3 & ->).
  unfold bind at 1, get.
  case_bool_decide; [done|apply IH].
Qed.

Lemma broadcast_outcome message schedule self :
  (fst (broadcast message schedule self) = Ok tt ∨
   fst (broadcast message schedule self) = Raise RuntimeError) ∧
  same_but_connections self (exec (broadcast message schedule) self).
Proof.
  split.
  - unfold broadcast, bind, get, modify.
    pose proof (send_turns_outcome message (size (websocket_clients self))
                  schedule (elements (websocket_clients self)) ∅ self) as H.
    destruct (send_turns _ _ _ _ _ self) as [[D'|e] self'];
      cbn in *; [by left|right; by rewrite H].
  - apply frame_broadcast. by unfold same_but_connections.
Qed.

Lemma broadcast_any (self : SmartArmBackend.t) (schedule : list turn)
    (detections : list VisionTracker.detection) :
  (fst (broadcast_status schedule self) = Ok tt ∨
   fst (broadcast_status schedule self) = Raise RuntimeError) ∧
  same_but_connections self (exec (broadcast_status schedule) self) ∧
  (fst (broadcast_detections schedule detections self) = Ok tt ∨
   fst (broadcast_detections schedule detections self) = Raise RuntimeError) ∧
  same_but_connections self
    (exec (broadcast_detections schedule detections) self).
Proof.
  unfold exec, broadcast_status, broadcast_detections, bind, get.
  case_bool_decide as Hne.
  - destruct (broadcast_outcome (status_message self) schedule self).
    destruct (broadcast_outcome (detections_message detections) schedule self).
    done.
  - cbn. unfold same_but_connections. auto 10.
Qed.

(** X11: a broadcast round with any number of subscribers, for both
    broadcast coroutines.  When the coroutine is never suspended, the
    round does not raise; the subscribers still registered afterwards
    are exactly those that were registered and open; exactly these
    received the message, once; no connection changed its open or
    closed state; and nothing else in the backend changed.  Whatever the
    event loop runs during the sends, the round returns or raises
    [RuntimeError] and nothing but the connections changes. *)
Theorem broadcast_rounds (self : SmartArmBackend.t)
    (detections : list VisionTracker.detection) :
  (∃ self', broadcast_status [] self = (Ok tt, self') ∧
            round_outcome (status_message self) self self') ∧
  (∃ self', broadcast_detections [] detections self = (Ok tt, self') ∧
            round_outcome (detections_message detections) self self') ∧
  (∀ schedule,
     (fst (broadcast_status schedule self) = Ok tt ∨
      fst (broadcast_status schedule self) = Raise RuntimeError) ∧
     same_but_connections self (exec (broadcast_status schedule) self) ∧
     (fst (broadcast_detections schedule detections self) = Ok tt ∨
      fst (broadcast_detections schedule detections self)
        = Raise RuntimeError) ∧
     same_but_connections self
       (exec (broadcast_detections schedule detections) self)).
Proof.
  destruct (broadcast_both self detections) as [H1 H2].
  split; [exact H1|]. split; [exact H2|].
  intros schedule. apply broadcast_any.
Qed.

(** X12: after a round that was never suspended every registered
    subscriber is open, so such a round that follows at once removes
    nobody and reaches all of them: after a status broadcast and then a
    detections broadcast, the registered set is that left by the first
    round and each of its members has received the two messages in that
    order. *)
Theorem broadcast_twice (self : SmartArmBackend.t)
    (detections : list VisionTracker.detection) :
  let self1 := exec (broadcast_status []) self in
  let self2 := exec (broadcast_detections [] detections) self1 in
  (∀ c, c ∈ websocket_clients self1 → closed (sockets self1 c) = false) ∧
  websocket_clients self2 = websocket_clients self1 ∧
  (∀ c, c ∈ websocket_clients self1 →
        received (sockets self2 c) =
        received (sockets self c)
          ++ [status_message self; detections_message detections]).
Proof.
  cbn zeta. unfold exec.
  destruct (broadcast_both self detections)
    as [(self1 & -> & Hreg1 & Hrecv1 & Hcl1 & _) _]. cbn [snd].
  destruct (broadcast_both self1 detections)
    as [_ (self2 & -> & Hreg2 & Hrecv2 & Hcl2 & _)]. cbn [snd].
  assert (Hopen : ∀ c, c ∈ websocket_clients self1 →
                       closed (sockets self1 c) = false).
  { intros c [_ Hc]%Hreg1. by rewrite Hcl1. }
  split_and!.
  - done.
  - apply set_eq. intros c. rewrite Hreg2. split; [tauto|]. eauto.
  - intros c Hc. rewrite Hrecv2, decide_True by eauto.
    rewrite Hrecv1, decide_True by (by apply Hreg1).
    by rewrite <- app_assoc.
Qed.

(** X13: the life of a connection in [websocket_handler].  Entering
    with an open connection registers it and sends it the current
    status as its next message, touching no other connection; entering
    with a closed one leaves it unregistered and sends nothing.
    Leaving unregisters the connection and only it, and leaving twice is
    the same as leaving once. *)
Theorem websocket_handler_lifecycle (ws : nat) (self : SmartArmBackend.t) :
  (closed (sockets self ws) = false →
     ∃ self', websocket_handler_enter ws self = (Ok true, self') ∧
       websocket_clients self' = {[ws]} ∪ websocket_clients self ∧
       received (sockets self' ws) =
         received (sockets self ws) ++ [status_message self] ∧
       (∀ c, c ≠ ws → sockets self' c = sockets self c) ∧
       same_but_connections self self') ∧
  (closed (sockets self ws) = true →
     ∃ self', websocket_handler_enter ws self = (Ok false, self') ∧
       websocket_clients self' = websocket_clients self ∖ {[ws]} ∧
       sockets self' = sockets self ∧
       same_but_connections self self') ∧
  websocket_clients (exec (websocket_handler_exit ws) self) =
    websocket_clients self ∖ {[ws]} ∧
  exec (websocket_handler_exit ws) (exec (websocket_handler_exit ws) self) =
    exec (websocket_handler_exit ws) self.
Proof.
  split_and!.
  - intros Hopen.
    unfold websocket_handler_enter, try_except, send, bind, modify, get, ret.
    cbn. rewrite Hopen. cbn.
    eexists. split; [reflexivity|]. cbn. split_and!; try done.
    + by rewrite fn_lookup_insert.
    + intros c Hc. by rewrite fn_lookup_insert_ne.
  - intros Hclosed.
    unfold websocket_handler_enter, try_except, send, bind, modify, get, ret.
    cbn. rewrite Hclosed. cbn.
    eexists. split; [reflexivity|]. cbn. split_and!; try done.
    apply set_eq. intros c.
    rewrite !elem_of_difference, elem_of_union. tauto.
  - done.
  - unfold exec, websocket_handler_exit, modify, with_websocket_clients. cbn.
    f_equal. apply set_eq. intros c. rewrite !elem_of_difference. tauto.
Qed.

End BroadcastMore.

(** ** More on the closest-object scan *)

Section ClosestMore.
Import Float64 VisionTracker Examples.

Context {L : Float64.Libm}.

Lemma pow2_raises x e : pow2 x = Raise e → e = OverflowError.
Proof.
  unfold pow2. destruct x as [| | |sx m ex]; try discriminate.
  destruct (SFeqb _ one); [discriminate|].
  destruct (libm_pow2 _) as [ix erange].
  destruct erange, ix; congruence.
Qed.

Lemma distance_to_raises target d e :
  distance_to target d = Raise e → e = OverflowError.
Proof.
  unfold distance_to. destruct (relative_position d) as [rel_x rel_y].
  destruct (pow2 (sub rel_x target.1)) as [dx2|e1] eqn:H1; cbn.
  - destruct (pow2 (sub rel_y target.2)) as [dy2|e2] eqn:H2; cbn; [done|].
    intros [= <-]. by apply pow2_raises in H2.
  - intros [= <-]. by apply pow2_raises in H1.
Qed.

(** The loop on any input.  When it raises, some detection's distance
    does; otherwise every distance is a number, and either no detection
    is below [min_distance] and [closest_object] comes back, or a
    detection below [min_distance] does that no detection is strictly
    nearer than. *)
Lemma scan_any target ds :
  ∀ min_distance closest_object,
    match scan target ds min_distance closest_object with
    | Raise e => ∃ d, d ∈ ds ∧ distance_to target d = Raise e
    | Ok r =>
        Forall (λ d, ∃ x, distance_to target d = Ok x) ds ∧
        ((r = closest_object ∧
          Forall (λ d, ∃ x, distance_to target d = Ok x ∧
                            ltb x min_distance = false) ds) ∨
         (∃ d x, r = Some d ∧ d ∈ ds ∧ distance_to target d = Ok x ∧
                 ltb x min_distance = true ∧
                 Forall (λ d', ∃ x', distance_to target d' = Ok x' ∧
                                     ltb x' x = false) ds))
    end.
Proof.
  induction ds as [|d rest IH]; intros min_distance closest_object.
  - cbn. split; [constructor|]. left. by split.
  - cbn [scan]. destruct (distance_to target d) as [x|e] eqn:Hx; cbn [pybind].
    2:{ exists d. split; [apply list_elem_of_here|done]. }
    destruct (ltb x min_distance) eqn:Hlt.
    + specialize (IH x (Some d)).
      destruct (scan target rest x (Some d)) as [r|e].
      * destruct IH as [Hall [[-> Hge]|(d' & x' & -> & Hin & Hx' & Hlt' & Hmin)]].
        -- split; [constructor; eauto|]. right. exists d, x.
           split_and!; try done; [apply list_elem_of_here|].
           constructor; [|done]. exists x. split; [done|apply ltb_irrefl].
        -- split; [constructor; eauto|]. right. exists d', x'.
           split_and!; try done.
           ++ by apply list_elem_of_further.
           ++ by apply (ltb_trans _ x).
           ++ constructor; [|done]. exists x. split; [done|].
              by apply ltb_asym.
      * destruct IH as (d' & Hin & Hd'). exists d'.
        split; [by apply list_elem_of_further|done].
    + specialize (IH min_distance closest_object).
      destruct (scan target rest min_distance closest_object) as [r|e].
      * destruct IH as [Hall [[-> Hge]|(d' & x' & -> & Hin & Hx' & Hlt' & Hmin)]].
        -- split; [constructor; eauto|]. left. split; [done|].
           constructor; [eauto|done].
        -- split; [constructor; eauto|]. right. exists d', x'.
           split_and!; try done; [by apply list_elem_of_further|].
           constructor; [|done]. exists x. split; [done|].
           destruct (ltb x x') eqn:Hxx'; [|done].
           by rewrite (ltb_trans _ _ _ Hxx' Hlt') in Hlt.
      * destruct IH as (d' & Hin & Hd'). exists d'.
        split; [by apply list_elem_of_further|done].
Qed.

(** X14: whatever the input, a detection that [find_closest_object]
    returns is one of the current detections, its distance to the
    target is a number below infinity, and no current detection is
    strictly nearer to the target. *)
Theorem find_closest_object_sound (self : VisionTracker.t)
    (target_position : option (float * float)) (d : detection) :
  let target := default (f0_5, f0_5) target_position in
  find_closest_object self target_position = Ok (Some d) →
  d ∈ detections self ∧
  ∃ x, distance_to target d = Ok x ∧ ltb x inf = true ∧
       Forall (λ d', ∃ x', distance_to target d' = Ok x' ∧ ltb x' x = false)
         (detections self).
Proof.
  intros target. unfold find_closest_object, get_detections.
  change (default default_target_position target_position) with target.
  destruct (detections self) as [|d0 rest] eqn:Hds; [done|].
  intros Hscan. pose proof (scan_any target (d0 :: rest) inf None) as H.
  rewrite Hscan in H.
  destruct H as [_ [[[=] _]|(d' & x & [= <-] & Hin & Hx & Hlt & Hmin)]].
  eauto.
Qed.

(** X15: the two ways [find_closest_object] gives no detection.  It
    returns [None] exactly when every distance is computed and none is
    below infinity (in particular when there is no detection); it raises
    exactly when computing some detection's distance raises, and what it
    raises is [OverflowError]. *)
Theorem find_closest_object_nothing (self : VisionTracker.t)
    (target_position : option (float * float)) :
  let target := default (f0_5, f0_5) target_position in
  (find_closest_object self target_position = Ok None ↔
   Forall (λ d, ∃ x, distance_to target d = Ok x ∧ ltb x inf = false)
     (detections self)) ∧
  ((∃ e, find_closest_object self target_position = Raise e) ↔
   Exists (λ d, ∃ e, distance_to target d = Raise e) (detections self)) ∧
  (∀ e, find_closest_object self target_position = Raise e →
        e = OverflowError).
Proof.
  intros target. unfold find_closest_object, get_detections.
  change (default default_target_position target_position) with target.
  destruct (detections self) as [|d0 rest] eqn:Hds.
  { split_and!.
    - split; [constructor|done].
    - split; [intros [e [=]]|intros []%Exists_nil].
    - intros e [=]. }
  pose proof (scan_any target (d0 :: rest) inf None) as H.
  destruct (scan target (d0 :: rest) inf None) as [r|e] eqn:Hscan.
  - destruct H as [Hall Hr]. split_and!.
    + split.
      * intros [= ->]. destruct Hr as [[_ Hge]|(d' & x & [=] & _)]. done.
      * intros Hge. destruct Hr as [[-> _]|(d' & x & -> & Hin & Hx & Hlt & _)];
          [done|].
        rewrite Forall_forall in Hge. destruct (Hge d' Hin) as (x' & Hx' & Hx'').
        congruence.
    + split; [intros [e [=]]|].
      intros (d & Hin & e & He)%Exists_exists.
      rewrite Forall_forall in Hall. destruct (Hall d Hin) as [x Hx]. congruence.
    + intros e [=].
  - destruct H as (d & Hin & Hd). split_and!.
    + split; [done|]. intros Hge.
      rewrite Forall_forall in Hge. destruct (Hge d Hin) as (x & Hx & _).
      congruence.
    + split; [|eauto]. intros _. apply Exists_exists. eauto.
    + intros e' [= <-]. by apply distance_to_raises in Hd.
Qed.

End ClosestMore.

Section ClosestMoreExamples.
Import Float64 VisionTracker Examples.

Lemma find_closest_object_sound_witness :
  det_at 0 (f0_1, f0_1) ∈ detections tie_tracker ∧
  ∃ x, distance_to (L := libm_rounded) (f0_5, f0_5) (det_at 0 (f0_1, f0_1))
         = Ok x ∧
       ltb x inf = true ∧
       Forall (λ d', ∃ x', distance_to (L := libm_rounded) (f0_5, f0_5) d'
                             = Ok x' ∧
                           ltb x' x = false)
         (detections tie_tracker).
Proof.
  apply (find_closest_object_sound (L := libm_rounded) tie_tracker None
           (det_at 0 (f0_1, f0_1))).
  vm_compute. reflexivity.
Defined.

End ClosestMoreExamples.

(** ** The tracking cycle and the detection callback *)

Section Tracking.
Import Float64 SmartArmBackend Vocabulary Examples.

Context {L : Float64.Libm}.

(** X16: one tracking cycle.  It never raises and always stores the new
    detections.  With none, nothing else changes.  With some, the
    callback records them under [last_detection]; when
    [find_closest_object] returns a detection, one entry with the
    current mode, the number of detections and that detection is
    logged, and otherwise none; and the detections broadcast is queued
    only if [find_closest_object] did not raise and the thread has a
    running event loop. *)
Theorem tracking_cycle_outcome (in_loop : bool) (now : string)
    (ds : list VisionTracker.detection) (self : SmartArmBackend.t)
    (mode : pyval) :
  system_status self !! "mode" = Some mode →
  let self' := exec (tracking_cycle in_loop now ds) self in
  let found :=
    VisionTracker.find_closest_object
      {| VisionTracker.is_running := VisionTracker.is_running (vision_tracker self);
         VisionTracker.detections := ds |} None in
  fst (tracking_cycle in_loop now ds self) = Ok tt ∧
  VisionTracker.detections (vision_tracker self') = ds ∧
  (ds = [] →
     system_status self' = system_status self ∧
     data_logger self' = data_logger self ∧ tasks self' = tasks self) ∧
  (ds ≠ [] →
     system_status self' =
       <["last_detection" :=
           PDict {[ "timestamp" := PStr now;
                    "count" := PInt (Z.of_nat (length ds));
                    "objects" := PList (detection_to_pyval <$> ds) ]}]>
         (system_status self) ∧
     data_logger self' =
       data_logger self ++
       match found with
       | Ok (Some d) => [(mode, Z.of_nat (length ds), d)]
       | _ => []
       end ∧
     tasks self' =
       tasks self ++
       match found with
       | Ok _ => if in_loop then [BroadcastDetections ds] else []
       | Raise _ => []
       end).
Proof.
  intros Hmode. cbn zeta.
  destruct ds as [|d0 rest].
  { split_and!; try done. }
  destruct self as [vt dl mc wc st sk tk]. cbn [system_status] in Hmode.
  assert (Hmode' : ∀ v, <["last_detection":=v]> st !! "mode" = Some mode)
    by (intros v; by rewrite lookup_insert_ne).
  cbv [exec tracking_cycle on_vision_detection try_except bind modify get
       status_setitem status_getitem lift log_operation create_task ret raise
       py_getitem fst snd vision_tracker system_status data_logger tasks
       with_vision_tracker with_system_status with_data_logger with_tasks
       mqtt_client websocket_clients sockets].
  destruct (VisionTracker.find_closest_object _ None) as [[d|]|e];
    rewrite ?Hmode'; destruct in_loop; rewrite ?app_nil_r;
    split_and!; done.
Qed.

End Tracking.

Section TrackingExamples.
Import Float64 SmartArmBackend Vocabulary Examples.

Lemma tracking_cycle_outcome_witness :
  let ds := VisionTracker.detections tie_tracker in
  let self' :=
    exec (tracking_cycle (L := libm_rounded) true "2024-01-01T00:00:00" ds)
      manual_backend in
  data_logger self' = [(PStr "manual", 2, det_at 0 (f0_1, f0_1))] ∧
  tasks self' = [BroadcastDetections ds].
Proof.
  cbn zeta.
  destruct (tracking_cycle_outcome (L := libm_rounded) true
              "2024-01-01T00:00:00"
              (VisionTracker.detections tie_tracker) manual_backend
              (PStr "manual") eq_refl) as (_ & _ & _ & H).
  destruct H as (_ & Hlog & Htasks); [discriminate|].
  split; [rewrite Hlog|rewrite Htasks]; vm_compute; reflexivity.
Defined.

End TrackingExamples.

(** ** The data logger *)

Section Logging.
Import Float64 DataLogger Examples.

Lemma detection_cells_length det cells :
  detection_cells det = Some cells → length cells = 4%nat.
Proof.
  unfold detection_cells. destruct (py_truthy det); [|by intros [= <-]].
  destruct (get_opt det "confidence" _); [|done]. cbn.
  destruct (get_opt det "class_name" _); [|done]. cbn.
  destruct (get_opt det "relative_position" _) as [rel|]; [|done]. cbn.
  destruct (py_subscript rel 0); [|done]. cbn.
  destruct (py_subscript rel 1); [|done]. cbn.
  by intros [= <-].
Qed.

Lemma servo_cell_padded angles i :
  (i < 4)%nat →
  servo_cell angles i = PInt (default 90 ((angles ++ replicate 4 90) !! i)).
Proof.
  intros Hi. unfold servo_cell. case_bool_decide as Hlen.
  - by rewrite lookup_app_l.
  - rewrite lookup_app_r by lia.
    rewrite lookup_replicate_2 by lia. done.
Qed.

(** X17: every row [log_operation] builds has one cell per column of the
    CSV header, and its four servo cells are the first four of the given
    angles, a shorter list being filled up with 90 and an omitted one
    read as all 90; a fifth angle is never written. *)
Theorem row_data_shape (timestamp : string) (mode : pyval)
    (objects_detected : Z) (grab_success : bool) (distance_cm : float)
    (servo_angles : option (list Z)) (gripper_state : string)
    (detection_data : pyval) (execution_time_ms : float)
    (error_message : string) (row : list pyval) :
  row_data timestamp mode objects_detected grab_success distance_cm
    servo_angles gripper_state detection_data execution_time_ms error_message
    = Some row →
  length row = length csv_headers ∧
  take 4 (drop 5 row) =
    PInt <$> take 4 (default [90; 90; 90; 90; 90] servo_angles
                       ++ replicate 4 90).
Proof.
  unfold row_data.
  destruct (detection_cells detection_data) as [cells|] eqn:Hcells; [|done].
  cbn. intros [= <-]. apply detection_cells_length in Hcells. split.
  - cbn. rewrite length_app, Hcells. done.
  - cbn. rewrite !servo_cell_padded by lia.
    generalize (default [90; 90; 90; 90; 90] servo_angles). intros angles.
    destruct angles as [|a [|b [|c [|d angles]]]]; reflexivity.
Qed.

Lemma row_data_shape_witness :
  let row :=
    [PStr "t"; PStr "auto"; PInt 1; PBool true; PFloat f12_5;
     PInt 10; PInt 20; PInt 90; PInt 90; PStr "open";
     PFloat f0_0; PStr ""; PFloat f0_0; PFloat f0_0; PFloat f0_0; PStr ""] in
  length row = length csv_headers ∧
  take 4 (drop 5 row) =
    PInt <$> take 4 (default [90; 90; 90; 90; 90] (Some [10; 20])
                       ++ replicate 4 90).
Proof.
  apply (row_data_shape "t" (PStr "auto") 1 true f12_5 (Some [10; 20]) "open"
           PNone f0_0 "").
  vm_compute. reflexivity.
Defined.

(** X18: [log_operation] never raises, and detection data it cannot read
    makes it write nothing: a dict whose [relative_position] is a list of
    fewer than two entries, or a non-empty value that is not a dict,
    leaves the file as it was. *)
Theorem log_operation_unreadable (writable : bool) (timestamp : string)
    (mode : pyval) (objects_detected : Z) (grab_success : bool)
    (distance_cm : float) (servo_angles : option (list Z))
    (gripper_state : string) (detection_data : pyval)
    (execution_time_ms : float) (error_message : string) (self : DataLogger.t) :
  (∃ d l, detection_data = PDict d ∧
          d !! "relative_position" = Some (PList l) ∧ (length l < 2)%nat) ∨
  (py_truthy detection_data = true ∧ ∀ d, detection_data ≠ PDict d) →
  log_operation writable timestamp mode objects_detected grab_success
    distance_cm servo_angles gripper_state detection_data execution_time_ms
    error_message self = self.
Proof.
  intros H. unfold log_operation, row_data.
  enough (detection_cells detection_data = None) as -> by done.
  unfold detection_cells.
  destruct H as [(d & l & -> & Hrel & Hlen)|[Htruthy Hnd]].
  - assert (py_truthy (PDict d) = true) as ->.
    { cbn. apply negb_true_iff, bool_decide_eq_false. intros Hsize.
      apply map_size_empty_inv in Hsize. by rewrite Hsize in Hrel. }
    unfold get_opt, py_get. cbn. rewrite Hrel. cbn.
    destruct l as [|a [|b l]]; cbn in *; [done|done|lia].
  - rewrite Htruthy.
    destruct detection_data; try done. by destruct (Hnd d).
Qed.

Lemma log_operation_unreadable_witness :
  log_operation true "t" (PStr "auto") 1 false f0_0 None "unknown"
    (PDict {[ "relative_position" := PList [PFloat f0_5] ]}) f0_0 ""
    {| rows := [] |} = {| rows := [] |}.
Proof.
  apply (log_operation_unreadable true "t" (PStr "auto") 1 false f0_0 None
           "unknown" (PDict {[ "relative_position" := PList [PFloat f0_5] ]})).
  left. exists {[ "relative_position" := PList [PFloat f0_5] ]}, [PFloat f0_5].
  split; [reflexivity|]. split; [reflexivity|]. cbn. lia.
Defined.

(** X19: the row written for a detection event.  For the entry the
    backend logs (mode, number of detections, closest detection) the
    logger appends exactly one row: the timestamp, the mode, the count,
    no grab, distance 0.0, four servo angles of 90, gripper [unknown],
    then the detection's confidence, class name and relative position,
    execution time 0.0 and no error. *)
Theorem log_detection_row (timestamp : string) (mode : pyval) (n : Z)
    (d : VisionTracker.detection) (self : DataLogger.t) :
  log_detection true timestamp (mode, n, d) self =
  {| rows := rows self ++
       [[PStr timestamp; mode; PInt n; PBool false; PFloat f0_0;
         PInt 90; PInt 90; PInt 90; PInt 90; PStr "unknown";
         PFloat (VisionTracker.confidence d);
         PStr (VisionTracker.class_name d);
         PFloat (fst (VisionTracker.relative_position d));
         PFloat (snd (VisionTracker.relative_position d));
         PFloat f0_0; PStr ""]] |}.
Proof.
  destruct d as [i c cn conf [[[x1 y1] x2] y2] ctr [rx ry] sz ts].
  vm_compute. reflexivity.
Qed.

End Logging.

(** ** The control route *)

Section ControlRoute.
Import SmartArmBackend ControlApi Vocabulary Examples.

Variable py_format : pyval → string.
Variable exn_text : exn → string.

(** Formatting an integer gives its decimal text. *)
Hypothesis py_format_int : ∀ z, py_format (PInt z) = pretty z.

Lemma set_mode_returns mode self :
  set_mode mode self = (Ok tt, exec (set_mode mode) self).
Proof.
  unfold exec, set_mode, status_setitem, publish, bind, modify, get, ret.
  destruct (py_in_strs mode ["auto"; "manual"]); [|done].
  cbn. by destruct (mqtt_client self).
Qed.

Lemma command_is_true name : command_is (PStr name) name = true.
Proof. cbn. by apply bool_decide_eq_true_2. Qed.

Lemma command_is_other command name :
  command ≠ PStr name → command_is command name = false.
Proof.
  intros Hne. destruct command; try done. cbn.
  apply bool_decide_eq_false_2. congruence.
Qed.

Lemma manual_servo_control_any_int servo_id angle self :
  manual_servo_control_any py_format (PInt servo_id) (PInt angle) self =
  manual_servo_control servo_id angle self.
Proof.
  unfold manual_servo_control_any, manual_servo_control, servo_command.
  by rewrite !py_format_int.
Qed.

Lemma manual_motor_control_any_int speed self :
  manual_motor_control_any py_format (PInt speed) self =
  manual_motor_control speed self.
Proof.
  unfold manual_motor_control_any, manual_motor_control.
  by rewrite !py_format_int.
Qed.

(** X20: the [set_mode] command of the control route always answers
    [success: true] with the requested mode (['auto'] when the request
    names none), also when the mode is neither ['auto'] nor ['manual'] and
    the backend is therefore left exactly as it was. *)
Theorem control_system_set_mode (d : gmap string pyval)
    (self : SmartArmBackend.t) :
  d !! "command" = Some (PStr "set_mode") →
  let mode := default (PStr "auto") (d !! "mode") in
  control_system py_format exn_text (Ok (PDict d)) self =
    (Ok (PDict {[ "success" := PBool true; "mode" := mode ]}, 200),
     exec (set_mode mode) self) ∧
  (mode ≠ PStr "auto" → mode ≠ PStr "manual" →
     exec (set_mode mode) self = self).
Proof.
  intros Hcmd. cbn zeta. split.
  - cbv [control_system try_except bind lift py_get ret].
    rewrite Hcmd. change (default PNone (Some ?v)) with v.
    rewrite command_is_true. by rewrite set_mode_returns.
  - intros Ha Hm. unfold exec. by rewrite set_mode_ignores.
Qed.

Lemma command_is_unknown (d : gmap string pyval) name :
  d !! "command" ≠ Some (PStr name) →
  command_is (default PNone (d !! "command")) name = false.
Proof.
  intros Hne. apply command_is_other.
  destruct (d !! "command") as [c|]; cbn; congruence.
Qed.

(** X21: requests the control route turns down, each without touching
    the backend.  A JSON object whose [command] is missing or is none of
    the five known commands gets status 400 and the error text
    [Unknown command]; a body that is not a JSON object, or that could
    not be read, gets status 500 with the text of the exception. *)
Theorem control_system_rejects (self : SmartArmBackend.t) :
  (∀ d : gmap string pyval,
     Forall (λ name, d !! "command" ≠ Some (PStr name)) known_commands →
     control_system py_format exn_text (Ok (PDict d)) self =
       (Ok (PDict {[ "error" := PStr "Unknown command" ]}, 400), self)) ∧
  (∀ v, (∀ d, v ≠ PDict d) →
     control_system py_format exn_text (Ok v) self =
       (Ok (PDict {[ "error" := PStr (exn_text AttributeError) ]}, 500), self)) ∧
  (∀ e,
     control_system py_format exn_text (Raise e) self =
       (Ok (PDict {[ "error" := PStr (exn_text e) ]}, 500), self)).
Proof.
  split_and!.
  - intros d Hunknown. unfold known_commands in Hunknown.
    rewrite !Forall_cons in Hunknown.
    destruct Hunknown as (H1 & H2 & H3 & H4 & H5 & _).
    cbv [control_system try_except bind lift py_get ret].
    by rewrite !command_is_unknown.
  - intros v Hv. destruct v; try done. by destruct (Hv d).
  - done.
Qed.

(** X22: the manual and the stop and home commands of the route hand
    the call on and report its answer: with integer arguments the
    [manual_servo] and [manual_motor] commands do what
    [manual_servo_control] and [manual_motor_control] do (the speed is 0
    when the request names none), [emergency_stop] and [home_position]
    what their methods do, and the body is [success] with the method's
    result, status 200. *)
Theorem control_system_forwards (d : gmap string pyval)
    (self self' : SmartArmBackend.t) (b : bool) :
  let answer := (Ok (PDict {[ "success" := PBool b ]}, 200), self') in
  (d !! "command" = Some (PStr "manual_servo") →
   ∀ i a, d !! "servo_id" = Some (PInt i) → d !! "angle" = Some (PInt a) →
     manual_servo_control i a self = (Ok b, self') →
     control_system py_format exn_text (Ok (PDict d)) self = answer) ∧
  (d !! "command" = Some (PStr "manual_motor") →
   ∀ v, default (PInt 0) (d !! "speed") = PInt v →
     manual_motor_control v self = (Ok b, self') →
     control_system py_format exn_text (Ok (PDict d)) self = answer) ∧
  (d !! "command" = Some (PStr "emergency_stop") →
     emergency_stop self = (Ok b, self') →
     control_system py_format exn_text (Ok (PDict d)) self = answer) ∧
  (d !! "command" = Some (PStr "home_position") →
     move_to_home self = (Ok b, self') →
     control_system py_format exn_text (Ok (PDict d)) self = answer).
Proof.
  cbn zeta. split_and!.
  - intros Hcmd i a Hi Ha Hcall.
    cbv [control_system try_except bind lift py_get ret].
    rewrite Hcmd, Hi, Ha. change (default PNone (Some ?v)) with v.
    rewrite command_is_true.
    rewrite (command_is_other _ "set_mode") by discriminate.
    by rewrite manual_servo_control_any_int, Hcall.
  - intros Hcmd v Hv Hcall.
    cbv [control_system try_except bind lift py_get ret].
    rewrite Hcmd, Hv. change (default PNone (Some ?v)) with v.
    rewrite command_is_true.
    rewrite (command_is_other _ "set_mode") by discriminate.
    rewrite (command_is_other _ "manual_servo") by discriminate.
    by rewrite manual_motor_control_any_int, Hcall.
  - intros Hcmd Hcall.
    cbv [control_system try_except bind lift py_get ret].
    rewrite Hcmd. change (default PNone (Some ?v)) with v.
    rewrite command_is_true.
    rewrite (command_is_other _ "set_mode") by discriminate.
    rewrite (command_is_other _ "manual_servo") by discriminate.
    rewrite (command_is_other _ "manual_motor") by discriminate.
    by rewrite Hcall.
  - intros Hcmd Hcall.
    cbv [control_system try_except bind lift py_get ret].
    rewrite Hcmd. change (default PNone (Some ?v)) with v.
    rewrite command_is_true.
    rewrite (command_is_other _ "set_mode") by discriminate.
    rewrite (command_is_other _ "manual_servo") by discriminate.
    rewrite (command_is_other _ "manual_motor") by discriminate.
    rewrite (command_is_other _ "emergency_stop") by discriminate.
    by rewrite Hcall.
Qed.

(** X23: the route does not check the arguments of [manual_servo]: when
    the request names neither [servo_id] nor [angle], in manual mode with
    a client, it still answers [success: true] and publishes [SERVO]
    followed by the texts of two [None] values. *)
Theorem control_system_unvalidated (d : gmap string pyval)
    (self : SmartArmBackend.t) (client : mqtt_client_t) :
  d !! "command" = Some (PStr "manual_servo") →
  d !! "servo_id" = None → d !! "angle" = None →
  system_status self !! "mode" = Some (PStr "manual") →
  mqtt_client self = Some client →
  control_system py_format exn_text (Ok (PDict d)) self =
    (Ok (PDict {[ "success" := PBool true ]}, 200),
     with_mqtt_client
       (Some (client_publish client CONTROL_TOPIC
                ("SERVO " +:+ py_format PNone +:+ " " +:+ py_format PNone)))
       self).
Proof.
  intros Hcmd Hi Ha Hmode Hclient.
  cbv [control_system try_except bind lift py_get ret].
  rewrite Hcmd, Hi, Ha. change (default PNone (Some ?v)) with v.
  rewrite command_is_true.
  rewrite (command_is_other _ "set_mode") by discriminate.
  unfold manual_servo_control_any, status_getitem, publish, bind, get, lift,
    modify, ret, py_getitem.
  rewrite Hmode. change (py_ne_str (PStr "manual") "manual") with false.
  cbn. by rewrite Hclient.
Qed.

End ControlRoute.

Section ControlRouteExamples.
Import SmartArmBackend ControlApi Vocabulary Examples.

Lemma control_system_set_mode_witness :
  let d : gmap string pyval :=
    {[ "command" := PStr "set_mode"; "mode" := PStr "turbo" ]} in
  let mode := default (PStr "auto") (d !! "mode") in
  control_system format_plain exn_name (Ok (PDict d)) manual_backend =
    (Ok (PDict {[ "success" := PBool true; "mode" := mode ]}, 200),
     exec (set_mode mode) manual_backend) ∧
  (mode ≠ PStr "auto" → mode ≠ PStr "manual" →
     exec (set_mode mode) manual_backend = manual_backend).
Proof.
  apply (control_system_set_mode format_plain exn_name
           {[ "command" := PStr "set_mode"; "mode" := PStr "turbo" ]}
           manual_backend).
  reflexivity.
Defined.

Lemma control_system_unvalidated_witness :
  control_system format_plain exn_name
    (Ok (PDict {[ "command" := PStr "manual_servo" ]})) manual_backend =
    (Ok (PDict {[ "success" := PBool true ]}, 200),
     with_mqtt_client
       (Some (client_publish
                {| subscriptions := [];
                   published := [(CONTROL_TOPIC, "MODE MANUAL")] |}
                CONTROL_TOPIC
                ("SERVO " +:+ format_plain PNone +:+ " " +:+ format_plain PNone)))
       manual_backend).
Proof.
  apply (control_system_unvalidated format_plain exn_name
           {[ "command" := PStr "manual_servo" ]} manual_backend);
    reflexivity.
Defined.

End ControlRouteExamples.

Section ControlRouteForwards.
Import SmartArmBackend ControlApi Vocabulary Examples.

Lemma control_system_forwards_witness :
  control_system format_plain exn_name
    (Ok (PDict {[ "command" := PStr "manual_servo";
                  "servo_id" := PInt 2; "angle" := PInt 45 ]}))
    manual_backend =
  (Ok (PDict {[ "success" := PBool true ]}, 200),
   exec (manual_servo_control 2 45) manual_backend).
Proof.
  refine (proj1 (control_system_forwards format_plain exn_name
                   (λ z, eq_refl)
                   {[ "command" := PStr "manual_servo";
                      "servo_id" := PInt 2; "angle" := PInt 45 ]}
                   manual_backend
                   (exec (manual_servo_control 2 45) manual_backend) true)
            _ 2 45 _ _ _); reflexivity.
Defined.

End ControlRouteForwards.

(** ** The vision flag *)

Section VisionFlag.
Import SmartArmBackend Vocabulary Examples.

Context {L : Float64.Libm}.

Ltac flag_assign :=
  let self := fresh "self" in let H1 := fresh "H" in let H2 := fresh "H" in
  intros self [H1 H2];
  cbn [system_status vision_tracker VisionTracker.is_running
       with_vision_tracker with_data_logger with_mqtt_client
       with_websocket_clients with_system_status with_sockets with_tasks];
  split;
  [ first [ exact H1
          | rewrite lookup_insert_ne by discriminate; exact H1
          | rewrite written_lookup, !decide_False by discriminate; exact H1 ]
  | exact H2 ].

Ltac flag_kept := preserves_with flag_assign.

Lemma flag_kept_broadcast V R message schedule :
  preserves (λ s, system_status s !! "vision_active" = V ∧
                  VisionTracker.is_running (vision_tracker s) = R)
    (broadcast message schedule).
Proof. apply preserves_broadcast. split; intros self ? H; exact H. Qed.

Lemma flag_kept_on_vision_detection V R in_loop now detections :
  preserves (λ s, system_status s !! "vision_active" = V ∧
                  VisionTracker.is_running (vision_tracker s) = R)
    (on_vision_detection in_loop now detections).
Proof. unfold on_vision_detection. flag_kept. Qed.

(** Only starting and stopping the tracking touch the flag or the
    tracker's running state. *)
Lemma run_flag_kept o self :
  o ≠ OpStartVision → o ≠ OpStopVision →
  system_status (run o self) !! "vision_active"
    = system_status self !! "vision_active" ∧
  VisionTracker.is_running (vision_tracker (run o self))
    = VisionTracker.is_running (vision_tracker self).
Proof.
  intros Hstart Hstop.
  enough (preserves
            (λ s, system_status s !! "vision_active"
                    = system_status self !! "vision_active" ∧
                  VisionTracker.is_running (vision_tracker s)
                    = VisionTracker.is_running (vision_tracker self))
            (λ s, (Ok tt, run o s))) as H by exact (H self (conj eq_refl eq_refl)).
  destruct o; try done; cbn [run]; unfold exec;
    intros s Hs; cbn [snd];
    lazymatch goal with
    | |- system_status (snd (?m s)) !! _ = ?V ∧ _ = ?R =>
        revert s Hs;
        change (preserves
                  (λ s, system_status s !! "vision_active" = V ∧
                        VisionTracker.is_running (vision_tracker s) = R) m)
    end.
  - unfold initialize_mqtt. flag_kept.
  - unfold on_mqtt_connect. flag_kept.
  - unfold on_mqtt_message. flag_kept.
  - unfold on_mqtt_disconnect. flag_kept.
  - unfold tracking_cycle. flag_kept; apply flag_kept_on_vision_detection.
  - unfold set_mode. flag_kept.
  - unfold manual_servo_control. flag_kept.
  - unfold manual_motor_control. flag_kept.
  - unfold emergency_stop. flag_kept.
  - unfold move_to_home. flag_kept.
  - unfold websocket_handler_enter. flag_kept.
  - unfold websocket_handler_exit. flag_kept.
  - unfold peer_close. flag_kept.
  - unfold broadcast_status. flag_kept; apply flag_kept_broadcast.
  - unfold broadcast_detections. flag_kept; apply flag_kept_broadcast.
Qed.

(** X24: in every reachable state the [vision_active] field of the
    system status tells whether the tracker is running: both start as
    false, [start_vision_tracking] and [stop_vision_tracking] set both
    together, and no other operation changes either. *)
Theorem vision_active_tracks_tracker (self : SmartArmBackend.t) :
  reachable self →
  system_status self !! "vision_active" =
    Some (PBool (VisionTracker.is_running (vision_tracker self))).
Proof.
  induction 1 as [|o self Hreach IH]; [done|].
  destruct o;
    lazymatch goal with
    | |- context [run OpStartVision _] => cbn; apply lookup_insert_eq
    | |- context [run OpStopVision _] => cbn; apply lookup_insert_eq
    | |- context [run ?o _] =>
        destruct (run_flag_kept o self) as [-> ->];
        [discriminate|discriminate|exact IH]
    end.
Qed.

End VisionFlag.

Section VisionFlagExamples.
Import SmartArmBackend Vocabulary Examples.

Lemma vision_active_tracks_tracker_witness :
  system_status (run (L := Float64.libm_rounded) OpStartVision manual_backend)
    !! "vision_active" =
    Some (PBool (VisionTracker.is_running
                   (vision_tracker (run (L := Float64.libm_rounded)
                                      OpStartVision manual_backend)))).
Proof.
  apply (vision_active_tracks_tracker (L := Float64.libm_rounded)).
  apply reachable_run, reachable_manual_backend.
Defined.

End VisionFlagExamples.
